(** * G1OJS_Tiny_Si5351_CLK0: setting the CLK0 frequency of an Si5351

    A shallow embedding of [G1OJS_Tiny_Si5351_CLK0.cpp]: the single public
    function [set_freq_Hz] and its private helper [I2CFlexiWrite].

    - [double] is the 64-bit IEEE-754 format (binary64) with
      round-to-nearest-even, taken from the standard library's executable
      specification [SpecFloat] ([prec = 53], [emax = 1024]). A conversion
      from [double] to [uint32_t] whose value does not fit is undefined
      and has no result.
    - [uint32_t] and [uint8_t] values are integers in [Z] with the
      wrap-around written out.
    - The [Wire] object and [delayMicroseconds] are external collaborators:
      every call is recorded in a trace, and whatever the collaborator
      returns is supplied by an arbitrary response function. *)

From Stdlib Require Import String.
From Stdlib Require Import ZArith List Bool Lia SpecFloat.
From Stdlib Require Import QArith Qabs Reals Lra Qreals.
Import ListNotations.

Local Open Scope Z_scope.

(** ** Fixed-width integers *)

Definition uint8 (z : Z) : Z := z mod 256.
Definition uint32 (z : Z) : Z := z mod 2 ^ 32.

Definition add32 (x y : Z) : Z := uint32 (x + y).
Definition sub32 (x y : Z) : Z := uint32 (x - y).
Definition mul32 (x y : Z) : Z := uint32 (x * y).
Definition div32 (x y : Z) : Z := x / y.

Definition is_uint32 (z : Z) : Prop := 0 <= z < 2 ^ 32.

(** ** IEEE-754 binary64 *)

Module Double.

Definition prec : Z := 53.
Definition emax : Z := 1024.

Definition double : Type := spec_float.

Definition mul : double -> double -> double := SFmul prec emax.
Definition div : double -> double -> double := SFdiv prec emax.
Definition sub : double -> double -> double := SFsub prec emax.

(** Conversion of an unsigned integer to [double] (exact below 2^53). *)
Definition of_uint32 (n : Z) : double := binary_normalize prec emax n 0 false.

(** A decimal literal [digits / 10^scale], correctly rounded: both
    operands are exact in binary64 for the literals of this program, so
    the rounded quotient is the literal's value. *)
Definition decimal (digits : Z) (scale : Z) : double :=
  div (binary_normalize prec emax digits 0 false)
      (binary_normalize prec emax (10 ^ scale) 0 false).

(** Integer part, rounding toward zero; no value for NaN and infinities. *)
Definition truncate (x : double) : option Z :=
  match x with
  | S754_zero _ => Some 0
  | S754_finite s m e =>
      Some (cond_Zopp s
              (match e with
               | Zneg k => Z.shiftr (Zpos m) (Zpos k)
               | _ => Z.shiftl (Zpos m) e
               end))
  | S754_infinity _ => None
  | S754_nan => None
  end.

(** Conversion of a [double] to [uint32_t]: the truncated value when it is
    representable, undefined ([None]) otherwise. *)
Definition to_uint32 (x : double) : option Z :=
  match truncate x with
  | Some n => if (0 <=? n) && (n <? 2 ^ 32) then Some n else None
  | None => None
  end.

(** The rational value of a finite [double]. *)
Definition to_Q (x : double) : Q :=
  match x with
  | S754_finite s m e =>
      match e with
      | Zneg k => Qmake (cond_Zopp s (Zpos m)) (2 ^ k)%positive
      | _ => inject_Z (cond_Zopp s (Zpos m) * 2 ^ e)
      end
  | _ => 0%Q
  end.

End Double.

(** ** Compile-time constants *)

(** [#define CorrFact 0.999658117] *)
Definition CorrFact : Double.double := Double.decimal 999658117 9.
(** [#define i2c_bus_address 0x60] *)
Definition i2c_bus_address : Z := 0x60.
(** [#define MSNAc 1048575UL] *)
Definition MSNAc : Z := 1048575.
(** The literals [6.0] and [25000000.0]. *)
Definition lit_6_0 : Double.double := Double.decimal 60 1.
Definition lit_25000000_0 : Double.double := Double.decimal 250000000 1.

(** ** The feedback multisynth calculation (lines 99-107 of the source) *)

Record feedback_multisynth : Type := {
  MSNA    : Double.double;
  MSNAa   : Z;
  MSNAb   : Z;
  MSNA_P1 : Z;
  MSNA_P2 : Z;
  MSNA_P3 : Z
}.

Definition obind {A B : Type} (o : option A) (k : A -> option B) : option B :=
  match o with
  | Some a => k a
  | None => None
  end.

(** [double MSNA = fout_Hz * CorrFact * 6.0 / 25000000.0;] *)
Definition MSNA_expr (fout_Hz : Z) : Double.double :=
  Double.div
    (Double.mul (Double.mul (Double.of_uint32 fout_Hz) CorrFact) lit_6_0)
    lit_25000000_0.

Definition calc_MSNA (fout_Hz : Z) : option feedback_multisynth :=
  let msna := MSNA_expr fout_Hz in
  obind (Double.to_uint32 msna) (fun a =>
  obind (Double.to_uint32
           (Double.mul (Double.sub msna (Double.of_uint32 a))
                       (Double.of_uint32 MSNAc))) (fun b =>
  Some {| MSNA := msna;
          MSNAa := a;
          MSNAb := b;
          MSNA_P1 := sub32 (add32 (mul32 128 a)
                                  (div32 (mul32 128 b) MSNAc)) 512;
          MSNA_P2 := sub32 (mul32 128 b)
                           (mul32 MSNAc (div32 (mul32 128 b) MSNAc));
          MSNA_P3 := MSNAc |})).

(** The byte for register 31:
    [(uint8_t)((MSNA_P3>>12) & 0xF0) + (uint8_t)((MSNA_P2>>16) & 0x0F)],
    converted to the [uint8_t] parameter. *)
Definition reg31_byte (P2 P3 : Z) : Z :=
  uint8 (uint8 (Z.land (Z.shiftr P3 12) 0xF0)
         + uint8 (Z.land (Z.shiftr P2 16) 0x0F)).

(** The eight bytes of the feedback multisynth burst, registers 26 to 33. *)
Definition MSNA_bytes (P1 P2 P3 : Z) : list Z :=
  [ uint8 (Z.land (Z.shiftr P3 8) 0xFF);
    uint8 (Z.land P3 0xFF);
    uint8 (Z.land (Z.shiftr P1 16) 0x03);
    uint8 (Z.land (Z.shiftr P1 8) 0xFF);
    uint8 (Z.land P1 0xFF);
    reg31_byte P2 P3;
    uint8 (Z.land (Z.shiftr P2 8) 0xFF);
    uint8 (Z.land P2 0xFF) ].

(** ** The external collaborators *)

(** Calls that leave the class: the [Wire] interface (writing and reading)
    and the Arduino core's [delayMicroseconds]. *)
Inductive call : Type :=
| beginTransmission (address : Z)
| write (data : Z)
| endTransmission
| requestFrom (address quantity : Z)
| read
| delayMicroseconds (us : Z).

Definition is_read (c : call) : bool :=
  match c with
  | requestFrom _ _ => true
  | read => true
  | _ => false
  end.

Section Program.

(** The collaborator: a state of its own and, for every call, the next
    state and the value it hands back ([size_t] of [write], status of
    [endTransmission], ...). *)
Variable World : Type.
Variable respond : World -> call -> World * Z.

Record machine : Type := { world : World; trace : list call }.

Definition M (A : Type) : Type := machine -> option (A * machine).

Definition ret {A : Type} (a : A) : M A := fun s => Some (a, s).

Definition bind {A B : Type} (m : M A) (k : A -> M B) : M B :=
  fun s =>
    match m s with
    | Some (a, s') => k a s'
    | None => None
    end.

Definition extern (c : call) : M Z :=
  fun s =>
    let (w, r) := respond (world s) c in
    Some (r, {| world := w; trace := trace s ++ [c] |}).

Definition defined {A : Type} (o : option A) : M A :=
  fun s =>
    match o with
    | Some a => Some (a, s)
    | None => None
    end.

Notation "m1 ;; m2" := (bind m1 (fun _ => m2))
  (at level 61, right associativity).
Notation "x <- m1 ;; m2" := (bind m1 (fun x => m2))
  (at level 61, m1 at next level, right associativity).

(** [I2CFlexiWrite]: one byte to [reg], and optionally seven more to the
    registers that follow. Nothing [Wire] returns is looked at. *)
Definition I2CFlexiWrite (reg b0 : Z) (include_b1_to_b7 : bool)
           (b1 b2 b3 b4 b5 b6 b7 : Z) : M unit :=
  extern (beginTransmission i2c_bus_address) ;;
  extern (write reg) ;;
  extern (write b0) ;;
  (if include_b1_to_b7 then
     extern (write b1) ;; extern (write b2) ;; extern (write b3) ;;
     extern (write b4) ;; extern (write b5) ;; extern (write b6) ;;
     extern (write b7) ;; ret tt
   else ret tt) ;;
  extern endTransmission ;;
  ret tt.

(** The call with the default arguments
    [include_b1_to_b7 = false, b1 = ... = b7 = 0]. *)
Definition I2CFlexiWrite1 (reg b0 : Z) : M unit :=
  I2CFlexiWrite reg b0 false 0 0 0 0 0 0 0.

Definition set_freq_Hz (fout_Hz : Z) : M unit :=
  (* Figure 10 Box 1: disable outputs *)
  I2CFlexiWrite1 24 0x00 ;;
  I2CFlexiWrite1 3 0xFF ;;
  (* Figure 10 Box 2: power down all output drivers *)
  I2CFlexiWrite 16 0x80 true 0x80 0x80 0x80 0x80 0x80 0x80 0x80 ;;
  (* Figure 10 Box 4 *)
  I2CFlexiWrite1 15 0x00 ;;
  I2CFlexiWrite1 183 0x2 ;;
  I2CFlexiWrite 42 0 true 1 0 1 0 0 0 0 ;;
  r <- defined (calc_MSNA fout_Hz) ;;
  I2CFlexiWrite 26
    (uint8 (Z.land (Z.shiftr (MSNA_P3 r) 8) 0xFF))
    true
    (uint8 (Z.land (MSNA_P3 r) 0xFF))
    (uint8 (Z.land (Z.shiftr (MSNA_P1 r) 16) 0x03))
    (uint8 (Z.land (Z.shiftr (MSNA_P1 r) 8) 0xFF))
    (uint8 (Z.land (MSNA_P1 r) 0xFF))
    (reg31_byte (MSNA_P2 r) (MSNA_P3 r))
    (uint8 (Z.land (Z.shiftr (MSNA_P2 r) 8) 0xFF))
    (uint8 (Z.land (MSNA_P2 r) 0xFF)) ;;
  I2CFlexiWrite1 16 0x4F ;;
  (* Figure 10 Box 5 *)
  _ <- extern (delayMicroseconds 500) ;;
  I2CFlexiWrite1 177 0x20 ;;
  (* Figure 10 Box 6 *)
  I2CFlexiWrite1 3 0x00.

(** Running the entry point from a collaborator state, with an empty
    trace: the calls it made, in order. *)
Definition run_set_freq_Hz (w : World) (fout_Hz : Z) : option (list call) :=
  match set_freq_Hz fout_Hz {| world := w; trace := [] |} with
  | Some (_, s) => Some (trace s)
  | None => None
  end.

End Program.

Arguments world {World}.
Arguments trace {World}.

(** ** Reading a trace as write operations *)

(** One write operation: the starting register and the data bytes. *)
Inductive operation : Type :=
| Write (reg : Z) (data : list Z)
| Delay (us : Z).

(** A transaction on the wire as the calls of one [I2CFlexiWrite]. *)
Definition transaction (reg : Z) (data : list Z) : list call :=
  beginTransmission i2c_bus_address :: write reg :: map write data
    ++ [endTransmission].

Definition calls_of (op : operation) : list call :=
  match op with
  | Write reg data => transaction reg data
  | Delay us => [delayMicroseconds us]
  end.

Definition calls_of_list (ops : list operation) : list call :=
  flat_map calls_of ops.

(** The registers a write operation touches: the starting register and the
    ones that follow, one per further byte. *)
Definition registers_of (op : operation) : list Z :=
  match op with
  | Write reg data => map (fun i => reg + Z.of_nat i) (seq 0 (length data))
  | Delay _ => []
  end.

Definition is_write (op : operation) : bool :=
  match op with
  | Write _ _ => true
  | Delay _ => false
  end.

(** The operations of one call of [set_freq_Hz], given the calculated
    fields. *)
Definition programme (r : feedback_multisynth) : list operation :=
  [ Write 24 [0x00];
    Write 3 [0xFF];
    Write 16 [0x80; 0x80; 0x80; 0x80; 0x80; 0x80; 0x80; 0x80];
    Write 15 [0x00];
    Write 183 [0x2];
    Write 42 [0; 1; 0; 1; 0; 0; 0; 0];
    Write 26 (MSNA_bytes (MSNA_P1 r) (MSNA_P2 r) (MSNA_P3 r));
    Write 16 [0x4F];
    Delay 500;
    Write 177 [0x20];
    Write 3 [0x00] ].

(** ** Vocabulary of the statements *)

(** The number of write transactions in a trace. *)
Definition count_transactions (t : list call) : nat :=
  length (filter (fun c => match c with endTransmission => true | _ => false end) t).

(** [m] always succeeds and appends exactly the calls [cs] to the trace. *)
Definition emits (World : Type) {A : Type} (m : M World A) (cs : list call) : Prop :=
  forall s, exists a w,
    m s = Some (a, {| world := w; trace := trace s ++ cs |}).

(** The supported band: 100 MHz to 150 MHz. *)
Definition in_band (fout_Hz : Z) : Prop := 100000000 <= fout_Hz <= 150000000.

(** The frequency a synthesizer fraction stands for:
    [25000000 * (a + b/c) / 6 / 0.999658117]. *)
Definition reconstructed_Hz (a b c : Z) : Q :=
  (inject_Z 25000000 * (inject_Z a + inject_Z b / inject_Z c)
   / inject_Z 6 / (999658117 # 1000000000))%Q.

(** The registers of the Si5351 this program is concerned with, by the
    role the source's comments give them. *)
Inductive register_class : Type :=
| Clock_disable_state   (* 24: CLK3-0 Disable State; 3: Output Enable Control *)
| Clock_control         (* 16: CLK0 control *)
| Driver_power          (* 17..23: CLK1..CLK7 control, power-down bit *)
| Reference_source      (* 15: PLL input source *)
| Reference_load        (* 183: crystal load capacitance *)
| Output_multisynth     (* 42..49: MS0 parameters and R0 output divider *)
| Feedback_multisynth   (* 26..33: MSNA parameters *)
| PLL_reset.            (* 177 *)

Definition class_of (reg : Z) : option register_class :=
  if (reg =? 24) || (reg =? 3) then Some Clock_disable_state
  else if reg =? 16 then Some Clock_control
  else if (17 <=? reg) && (reg <=? 23) then Some Driver_power
  else if reg =? 15 then Some Reference_source
  else if reg =? 183 then Some Reference_load
  else if (42 <=? reg) && (reg <=? 49) then Some Output_multisynth
  else if (26 <=? reg) && (reg <=? 33) then Some Feedback_multisynth
  else if reg =? 177 then Some PLL_reset
  else None.

Definition fixed_subset (reg : Z) : bool :=
  match class_of reg with
  | Some _ => true
  | None => false
  end.

(** The device's register image, and what a write operation does to it:
    the first byte goes to the starting register, every further byte to
    the register after. *)
Definition image : Type := Z -> Z.

Fixpoint store_burst (reg : Z) (data : list Z) (img : image) : image :=
  match data with
  | [] => img
  | b :: rest =>
      store_burst (reg + 1) rest (fun x => if x =? reg then b else img x)
  end.

Definition apply_op (img : image) (op : operation) : image :=
  match op with
  | Write reg data => store_burst reg data img
  | Delay _ => img
  end.

Definition apply_ops (ops : list operation) (img : image) : image :=
  fold_left apply_op ops img.

(** The number of write operations in a list of operations. *)
Definition count_writes (ops : list operation) : nat :=
  length (filter is_write ops).

(** A collaborator that acknowledges everything. *)
Definition ack (w : unit) (c : call) : unit * Z := (w, 0).
(** A collaborator that reports a failure for everything. *)
Definition nack (w : unit) (c : call) : unit * Z := (w, 4).

(** Reading the three fields back from the eight bytes of registers 26 to
    33, by the layout the source's comments give: 26 = P3[15:8],
    27 = P3[7:0], 28 = P1[17:16] in its two low bits, 29 = P1[15:8],
    30 = P1[7:0], 31 = P3[19:16] and P2[19:16], 32 = P2[15:8],
    33 = P2[7:0]. *)
Definition decode_fields (bytes : list Z) : option (Z * Z * Z) :=
  match bytes with
  | [r26; r27; r28; r29; r30; r31; r32; r33] =>
      Some (Z.land r28 0x03 * 2 ^ 16 + r29 * 2 ^ 8 + r30,
            (r31 mod 16) * 2 ^ 16 + r32 * 2 ^ 8 + r33,
            (r31 / 16) * 2 ^ 16 + r26 * 2 ^ 8 + r27)
  | _ => None
  end.

Definition is_byte (b : Z) : Prop := 0 <= b < 256.

(** A write operation the transport can carry: a register address and one
    or eight data bytes, each a byte. *)
Definition well_formed (op : operation) : Prop :=
  match op with
  | Write reg data =>
      is_byte reg /\ (length data = 1%nat \/ length data = 8%nat)
      /\ Forall is_byte data
  | Delay us => us = 500
  end.

(** The same at the level of calls. *)
Definition well_formed_call (c : call) : Prop :=
  match c with
  | beginTransmission address => address = 0x60
  | write data => is_byte data
  | endTransmission => True
  | delayMicroseconds us => us = 500
  | requestFrom _ _ => False
  | read => False
  end.

(** ** Lines 99 to 107 as statements over a store

    The same lines, statement by statement, with the variables kept in a
    store that maps every name to a value: the parameter [fout_Hz], the
    six locals the lines declare, and any other name there may be. A
    statement reads the variables its right-hand side mentions and
    assigns the one it declares. *)
Inductive value : Type :=
| VDouble (d : Double.double)
| VUint32 (n : Z).

Definition store : Type := String.string -> value.

Definition assign (s : store) (x : String.string) (v : value) : store :=
  fun y => if String.eqb y x then v else s y.

Definition read_uint32 (s : store) (x : String.string) : option Z :=
  match s x with
  | VUint32 n => Some n
  | VDouble _ => None
  end.

Definition read_double (s : store) (x : String.string) : option Double.double :=
  match s x with
  | VDouble d => Some d
  | VUint32 _ => None
  end.

(** [double MSNA = fout_Hz * CorrFact * 6.0 / 25000000.0;] *)
Definition line_99 (s : store) : option store :=
  obind (read_uint32 s "fout_Hz"%string) (fun fout_Hz =>
  Some (assign s "MSNA"%string
          (VDouble
             (Double.div
                (Double.mul (Double.mul (Double.of_uint32 fout_Hz) CorrFact)
                            lit_6_0)
                lit_25000000_0)))).

(** [uint32_t MSNAa = MSNA;] *)
Definition line_100 (s : store) : option store :=
  obind (read_double s "MSNA"%string) (fun msna =>
  obind (Double.to_uint32 msna) (fun a =>
  Some (assign s "MSNAa"%string (VUint32 a)))).

(** [uint32_t MSNAb = (double)(MSNA - MSNAa) * (double)MSNAc;] *)
Definition line_102 (s : store) : option store :=
  obind (read_double s "MSNA"%string) (fun msna =>
  obind (read_uint32 s "MSNAa"%string) (fun a =>
  obind (Double.to_uint32
           (Double.mul (Double.sub msna (Double.of_uint32 a))
                       (Double.of_uint32 MSNAc))) (fun b =>
  Some (assign s "MSNAb"%string (VUint32 b))))).

(** [uint32_t MSNA_P1 = 128 * MSNAa + 128 * MSNAb / MSNAc - 512;] *)
Definition line_105 (s : store) : option store :=
  obind (read_uint32 s "MSNAa"%string) (fun a =>
  obind (read_uint32 s "MSNAb"%string) (fun b =>
  Some (assign s "MSNA_P1"%string
          (VUint32 (sub32 (add32 (mul32 128 a)
                                 (div32 (mul32 128 b) MSNAc)) 512))))).

(** [uint32_t MSNA_P2 = 128 * MSNAb - MSNAc * (128 * MSNAb / MSNAc);] *)
Definition line_106 (s : store) : option store :=
  obind (read_uint32 s "MSNAb"%string) (fun b =>
  Some (assign s "MSNA_P2"%string
          (VUint32 (sub32 (mul32 128 b)
                          (mul32 MSNAc (div32 (mul32 128 b) MSNAc)))))).

(** [uint32_t MSNA_P3 = MSNAc;] *)
Definition line_107 (s : store) : option store :=
  Some (assign s "MSNA_P3"%string (VUint32 MSNAc)).

Definition lines_99_107 (s : store) : option store :=
  obind (line_99 s) (fun s =>
  obind (line_100 s) (fun s =>
  obind (line_102 s) (fun s =>
  obind (line_105 s) (fun s =>
  obind (line_106 s) line_107)))).

(** The names the lines declare. *)
Definition declared : list String.string :=
  [ "MSNA"; "MSNAa"; "MSNAb"; "MSNA_P1"; "MSNA_P2"; "MSNA_P3" ]%string.

(** Two stores for the examples: one with zeros, one with not-a-numbers
    everywhere but in [fout_Hz]. *)
Definition zeros (fout_Hz : Z) : store :=
  assign (fun _ => VUint32 0) "fout_Hz"%string (VUint32 fout_Hz).
Definition garbage (fout_Hz : Z) : store :=
  assign (fun _ => VDouble S754_nan) "fout_Hz"%string (VUint32 fout_Hz).

(** ** Real-number reading of binary64 values *)

(** Powers of two with an integer exponent. *)
Definition bpow (e : Z) : R := powerRZ 2 e.

(** The real value of a finite [double]. *)
Definition B2R (x : spec_float) : R :=
  match x with
  | S754_finite s m e => (IZR (cond_Zopp s (Zpos m)) * bpow e)%R
  | _ => 0%R
  end.

(** A full 53-bit mantissa: the number is normal. *)
Definition mant (m : positive) : Prop := 2 ^ 52 <= Zpos m < 2 ^ 53.

(** What a shift record says about a real [y]: it lies at, or strictly
    between, the integer [shr_m], the half-way point and the next
    integer, as the round and sticky bits tell. *)
Definition inbetween (y : R) (mrs : shr_record) : Prop :=
  let m := IZR (shr_m mrs) in
  match shr_r mrs, shr_s mrs with
  | false, false => y = m
  | false, true => (m < y < m + / 2)%R
  | true, false => y = (m + / 2)%R
  | true, true => (m + / 2 < y < m + 1)%R
  end.

(** What the calculation guarantees about its result, over the reals. *)
Definition MSNA_spec (fout_Hz : Z) (r : feedback_multisynth) : Prop :=
  let v := B2R (MSNA r) in
  let x := (IZR fout_Hz * (999658117 / 1000000000 * 6 / 25000000))%R in
  MSNA r = MSNA_expr fout_Hz
  /\ (x * (1 - / 1125899906842624) <= v <= x * (1 + / 1125899906842624))%R
  /\ 0 <= MSNAa r
  /\ (IZR (MSNAa r) <= v < IZR (MSNAa r) + 1)%R
  /\ 0 <= MSNAb r < MSNAc
  /\ ((v - IZR (MSNAa r)) * 1048575 - 1 - / 17179869184 < IZR (MSNAb r)
      <= (v - IZR (MSNAa r)) * 1048575 + / 17179869184)%R
  /\ MSNA_P1 r = sub32 (add32 (mul32 128 (MSNAa r))
                              (div32 (mul32 128 (MSNAb r)) MSNAc)) 512
  /\ MSNA_P2 r = sub32 (mul32 128 (MSNAb r))
                       (mul32 MSNAc (div32 (mul32 128 (MSNAb r)) MSNAc))
  /\ MSNA_P3 r = MSNAc.

(** * Facts about binary64 arithmetic *)

(** ** Powers of two and bit counts *)

Lemma bpow_pos e : (0 < bpow e)%R.
Proof. apply powerRZ_lt; lra. Qed.

Lemma bpow_add a b : bpow (a + b) = (bpow a * bpow b)%R.
Proof. apply powerRZ_add; lra. Qed.

Lemma bpow_IZR n : 0 <= n -> bpow n = IZR (2 ^ n).
Proof.
  intros Hn. unfold bpow.
  rewrite <- (Z2Nat.id n Hn) at 1.
  rewrite <- pow_powerRZ.
  rewrite <- (Z2Nat.id n Hn) at 2.
  rewrite <- Zpower_nat_Z. 
  induction (Z.to_nat n) as [|k IH]; [reflexivity|].
  rewrite Zpower_nat_succ_r, mult_IZR, <- IH. simpl. reflexivity.
Qed.

Lemma bpow_ge_1 n : 0 <= n -> (1 <= bpow n)%R.
Proof.
  intros Hn. rewrite bpow_IZR by assumption.
  apply IZR_le. assert (0 < 2 ^ n) by (apply Z.pow_pos_nonneg; lia). lia.
Qed.

Lemma bpow_le a b : a <= b -> (bpow a <= bpow b)%R.
Proof.
  intros H. replace b with (a + (b - a)) by ring.
  rewrite bpow_add.
  pose proof (bpow_pos a). pose proof (bpow_ge_1 (b - a) ltac:(lia)).
  nra.
Qed.

Lemma bpow_lt_inv a b : (bpow a < bpow b)%R -> a < b.
Proof.
  intros H. destruct (Z_lt_le_dec a b) as [|Hle]; [assumption|].
  apply bpow_le in Hle. lra.
Qed.

Lemma bpow_opp e : bpow (- e) = (/ bpow e)%R.
Proof. apply powerRZ_neg'. Qed.

Lemma bpow_cancel e : (bpow e * bpow (- e) = 1)%R.
Proof. rewrite <- bpow_add, Z.add_opp_diag_r. reflexivity. Qed.

Lemma digits2_size p : digits2_pos p = Pos.size p.
Proof. induction p; simpl; congruence. Qed.

Lemma digits2_bounds p :
  2 ^ (Zpos (digits2_pos p) - 1) <= Zpos p < 2 ^ Zpos (digits2_pos p).
Proof.
  rewrite digits2_size.
  pose proof (Pos.size_gt p) as Hgt. pose proof (Pos.size_le p) as Hle.
  split.
  - assert (H2 : 2 ^ Zpos (Pos.size p) <= 2 * Zpos p).
    { change (2 * Zpos p) with (Zpos p~0). rewrite <- Pos2Z.inj_pow. apply Pos2Z.pos_le_pos. exact Hle. }
    replace (Zpos (Pos.size p)) with (Z.succ (Zpos (Pos.size p) - 1)) in H2 by lia.
    rewrite Z.pow_succ_r in H2 by lia. lia.
  - change 2 with (Zpos 2). rewrite <- Pos2Z.inj_pow. apply Pos2Z.pos_lt_pos. exact Hgt.
Qed.

Lemma digits2_unique p d :
  2 ^ (d - 1) <= Zpos p < 2 ^ d -> Zpos (digits2_pos p) = d.
Proof.
  intros [Hlo Hhi]. pose proof (digits2_bounds p) as [Hlo' Hhi'].
  assert (0 < d).
  { destruct (Z_lt_le_dec 0 d); [assumption|]. 
    assert (2 ^ d <= 1). { destruct (Z.eq_dec d 0); [subst; simpl; lia|]. rewrite Z.pow_neg_r by lia. lia. } lia. }
  destruct (Z_lt_le_dec (Zpos (digits2_pos p)) d).
  - assert (2 ^ Zpos (digits2_pos p) <= 2 ^ (d - 1)) by (apply Z.pow_le_mono_r; lia). lia.
  - destruct (Z_lt_le_dec d (Zpos (digits2_pos p))); [|lia].
    assert (2 ^ d <= 2 ^ (Zpos (digits2_pos p) - 1)) by (apply Z.pow_le_mono_r; lia). lia.
Qed.

(** ** Shifting and rounding to nearest even *)

Lemma shr_1_spec y mrs :
  0 <= shr_m mrs -> inbetween y mrs ->
  inbetween (y / 2) (shr_1 mrs) /\ shr_m (shr_1 mrs) = shr_m mrs / 2.
Proof.
  destruct mrs as [m r s]. unfold inbetween. simpl shr_m; simpl shr_r; simpl shr_s.
  intros Hm Hy. rewrite <- Z.div2_div.
  destruct m as [|p|p]; [| |lia].
  - split; [|reflexivity]. destruct r, s; simpl in *; lra.
  - destruct p as [p|p|].
    + split; [|reflexivity].
      rewrite Pos2Z.inj_xI, plus_IZR, mult_IZR in Hy.
      destruct r, s; simpl in *; lra.
    + split; [|reflexivity].
      rewrite Pos2Z.inj_xO, mult_IZR in Hy.
      destruct r, s; simpl in *; lra.
    + split; [|reflexivity]. destruct r, s; simpl in *; lra.
Qed.

Lemma iter_pos_shr_1 n : forall y mrs,
  0 <= shr_m mrs -> inbetween y mrs ->
  inbetween (y * bpow (- Zpos n)) (SpecFloat.iter_pos shr_1 n mrs)
  /\ shr_m (SpecFloat.iter_pos shr_1 n mrs) = shr_m mrs / 2 ^ Zpos n.
Proof.
  assert (Hhalf : bpow (-1) = (/ 2)%R) by (unfold bpow; simpl; lra).
  induction n as [n IH|n IH|]; intros y mrs Hm Hy; simpl SpecFloat.iter_pos.
  - destruct (shr_1_spec y mrs Hm Hy) as [H1 E1].
    assert (Hm1 : 0 <= shr_m (shr_1 mrs)) by (rewrite E1; apply Z.div_pos; lia).
    destruct (IH _ _ Hm1 H1) as [H2 E2].
    assert (Hm2 : 0 <= shr_m (SpecFloat.iter_pos shr_1 n (shr_1 mrs))).
    { rewrite E2. apply Z.div_pos; [assumption|]. apply Z.pow_pos_nonneg; lia. }
    destruct (IH _ _ Hm2 H2) as [H3 E3].
    split.
    + replace (y * bpow (- Zpos n~1))%R with (y / 2 * bpow (- Zpos n) * bpow (- Zpos n))%R; [exact H3|].
      replace (- Zpos n~1) with (-1 + (- Zpos n + - Zpos n)) by lia.
      rewrite !bpow_add, Hhalf. field.
    + rewrite E3, E2, E1.
      rewrite !Z.div_div by (try apply Z.pow_pos_nonneg; lia).
      f_equal. replace (Zpos n~1) with (1 + Zpos n + Zpos n) by lia.
      rewrite !Z.pow_add_r by lia. ring.
  - destruct (IH _ _ Hm Hy) as [H2 E2].
    assert (Hm2 : 0 <= shr_m (SpecFloat.iter_pos shr_1 n mrs)).
    { rewrite E2. apply Z.div_pos; [assumption|]. apply Z.pow_pos_nonneg; lia. }
    destruct (IH _ _ Hm2 H2) as [H3 E3].
    split.
    + replace (y * bpow (- Zpos n~0))%R with (y * bpow (- Zpos n) * bpow (- Zpos n))%R; [exact H3|].
      replace (- Zpos n~0) with (- Zpos n + - Zpos n) by lia.
      rewrite !bpow_add. ring.
    + rewrite E3, E2.
      rewrite !Z.div_div by (try apply Z.pow_pos_nonneg; lia).
      f_equal. replace (Zpos n~0) with (Zpos n + Zpos n) by lia.
      rewrite !Z.pow_add_r by lia. ring.
  - destruct (shr_1_spec y mrs Hm Hy) as [H1 E1]. split.
    + change (- Zpos 1) with (-1). rewrite Hhalf. exact H1.
    + rewrite E1. reflexivity.
Qed.

Lemma shr_spec mrs e n y :
  0 <= shr_m mrs -> inbetween y mrs -> 0 <= n ->
  exists mrs', shr mrs e n = (mrs', e + n)
    /\ inbetween (y * bpow (- n)) mrs'
    /\ shr_m mrs' = shr_m mrs / 2 ^ n.
Proof.
  intros Hm Hy Hn. destruct n as [|n|n]; [| |lia].
  - exists mrs. simpl shr. rewrite Z.add_0_r. split; [reflexivity|]. split.
    + replace (y * bpow (- 0))%R with y by (unfold bpow; simpl; ring). exact Hy.
    + rewrite Z.pow_0_r, Z.div_1_r. reflexivity.
  - exists (SpecFloat.iter_pos shr_1 n mrs). simpl shr.
    destruct (iter_pos_shr_1 n y mrs Hm Hy). auto.
Qed.

Lemma inbetween_of_loc_exact m : inbetween (IZR m) (shr_record_of_loc m loc_Exact).
Proof. reflexivity. Qed.

Lemma shr_m_of_loc m l : shr_m (shr_record_of_loc m l) = m.
Proof. destruct l as [|[| |]]; reflexivity. Qed.

Lemma round_nearest_even_spec y mrs :
  inbetween y mrs ->
  (- / 2 <= IZR (round_nearest_even (shr_m mrs) (loc_of_shr_record mrs)) - y <= / 2)%R
  /\ shr_m mrs <= round_nearest_even (shr_m mrs) (loc_of_shr_record mrs) <= shr_m mrs + 1.
Proof.
  destruct mrs as [m r s]. unfold inbetween. simpl shr_m; simpl shr_r; simpl shr_s.
  intros Hy.
  destruct r, s; simpl; try destruct (Z.even m); rewrite ?plus_IZR;
    (split; [simpl; lra | lia]).
Qed.

Lemma fexp_normal k : -1021 <= k -> fexp 53 1024 k = k - 53.
Proof. intros H. unfold fexp, emin. lia. Qed.

Lemma Zdigits2_bounds m : 0 < m -> 2 ^ (Zdigits2 m - 1) <= m < 2 ^ Zdigits2 m.
Proof. destruct m as [|p|p]; try lia. intros _. apply digits2_bounds. Qed.

Lemma Zdigits2_unique m d : 0 < m -> 2 ^ (d - 1) <= m < 2 ^ d -> Zdigits2 m = d.
Proof. destruct m as [|p|p]; try lia. intros _. apply digits2_unique. Qed.

Lemma Zdigits2_ge m k : 0 <= k -> 2 ^ k <= m -> k + 1 <= Zdigits2 m.
Proof.
  intros Hk Hm. assert (0 < m) by (assert (0 < 2 ^ k) by (apply Z.pow_pos_nonneg; lia); lia).
  pose proof (Zdigits2_bounds m H) as [_ Hhi].
  destruct (Z_lt_le_dec k (Zdigits2 m)); [lia|].
  assert (2 ^ Zdigits2 m <= 2 ^ k) by (apply Z.pow_le_mono_r; lia). lia.
Qed.

Lemma shr_fexp_spec m e l y :
  2 ^ 52 <= m -> -1074 <= e -> inbetween y (shr_record_of_loc m l) ->
  exists mrs', shr_fexp 53 1024 m e l = (mrs', e + (Zdigits2 m - 53))
    /\ inbetween (y * bpow (- (Zdigits2 m - 53))) mrs'
    /\ shr_m mrs' = m / 2 ^ (Zdigits2 m - 53)
    /\ 2 ^ 52 <= shr_m mrs' < 2 ^ 53.
Proof.
  intros Hm He Hy.
  pose proof (Zdigits2_ge m 52 ltac:(lia) Hm) as Hd.
  unfold shr_fexp. rewrite fexp_normal by lia.
  replace (Zdigits2 m + e - 53 - e) with (Zdigits2 m - 53) by ring.
  destruct (shr_spec (shr_record_of_loc m l) e (Zdigits2 m - 53) y) as (mrs' & E & H1 & H2).
  { rewrite shr_m_of_loc. lia. } { exact Hy. } { lia. }
  rewrite shr_m_of_loc in H2.
  exists mrs'. repeat split; try assumption.
  - rewrite H2. apply Z.div_le_lower_bound; [apply Z.pow_pos_nonneg; lia|].
    rewrite <- Z.pow_add_r by lia.
    replace (Zdigits2 m - 53 + 52) with (Zdigits2 m - 1) by ring.
    apply Zdigits2_bounds. lia.
  - rewrite H2. apply Z.div_lt_upper_bound; [apply Z.pow_pos_nonneg; lia|].
    rewrite <- Z.pow_add_r by lia.
    replace (Zdigits2 m - 53 + 53) with (Zdigits2 m) by ring.
    apply Zdigits2_bounds. lia.
Qed.

(** The rounding performed by every operation: the result is a normal
    number within half a unit in the last place of the exact value. *)
Lemma binary_round_aux_correct s m e l x :
  2 ^ 52 <= m -> -1074 <= e -> e + Zdigits2 m - 52 <= 971 ->
  inbetween (x * bpow (- e)) (shr_record_of_loc m l) ->
  exists M E, binary_round_aux 53 1024 s m e l = S754_finite s M E
    /\ 2 ^ 52 <= Zpos M < 2 ^ 53
    /\ e + Zdigits2 m - 53 <= E <= e + Zdigits2 m - 52
    /\ (- (bpow E / 2) <= IZR (Zpos M) * bpow E - x <= bpow E / 2)%R.
Proof.
  intros Hm He Hov Hx.
  pose proof (Zdigits2_ge m 52 ltac:(lia) Hm) as Hd.
  destruct (shr_fexp_spec m e l _ Hm He Hx) as (mrs1 & E1 & I1 & M1 & B1).
  destruct (round_nearest_even_spec _ _ I1) as [R1 R2].
  set (M0 := round_nearest_even (shr_m mrs1) (loc_of_shr_record mrs1)) in *.
  set (e1 := e + (Zdigits2 m - 53)) in *.
  assert (HM0 : 2 ^ 52 <= M0 <= 2 ^ 53) by lia.
  destruct (shr_fexp_spec M0 e1 loc_Exact (IZR M0) ltac:(lia) ltac:(unfold e1; lia)
              (inbetween_of_loc_exact M0)) as (mrs2 & E2 & I2 & M2 & B2).
  assert (HdM0 : Zdigits2 M0 = 53 \/ (Zdigits2 M0 = 54 /\ M0 = 2 ^ 53)).
  { destruct (Z.eq_dec M0 (2 ^ 53)) as [->|Hne]; [right; split; reflexivity|].
    left. apply Zdigits2_unique; lia. }
  unfold binary_round_aux. rewrite E1. fold M0. rewrite E2.
  assert (Hval : (IZR (shr_m mrs2) * bpow (e1 + (Zdigits2 M0 - 53)) = IZR M0 * bpow e1)%R).
  { destruct HdM0 as [D|[D HM]]; rewrite M2, D.
    - replace (53 - 53) with 0 by ring. rewrite Z.div_1_r, Z.add_0_r. reflexivity.
    - rewrite HM. rewrite bpow_add. change (2 ^ 53 / 2 ^ (54 - 53)) with (2 ^ 52).
      replace (bpow (54 - 53)) with 2%R by (unfold bpow; simpl; lra).
      change (2 ^ 53) with (2 * 2 ^ 52). rewrite mult_IZR. ring. }
  destruct (shr_m mrs2) as [|M|M] eqn:EM; [lia| |lia].
  assert (HE : e1 + (Zdigits2 M0 - 53) <= 971) by (unfold e1; lia).
  apply Z.leb_le in HE. change (1024 - 53) with 971.
  rewrite HE.
  exists M, (e1 + (Zdigits2 M0 - 53)). split; [reflexivity|].
  split; [lia|]. split; [unfold e1; lia|].
  rewrite Hval.
  assert (Hb : (bpow e1 <= bpow (e1 + (Zdigits2 M0 - 53)))%R) by (apply bpow_le; lia).
  pose proof (bpow_pos e1) as Hp.
  replace (x * bpow (- e) * bpow (- (Zdigits2 m - 53)))%R with (x * bpow (- e1))%R in R1.
  2:{ unfold e1. replace (- (e + (Zdigits2 m - 53))) with (- e + - (Zdigits2 m - 53)) by ring.
      rewrite bpow_add. ring. }
  assert (Hx' : (x = x * bpow (- e1) * bpow e1)%R).
  { rewrite Rmult_assoc, <- bpow_add. replace (- e1 + e1) with 0 by ring. unfold bpow; simpl; ring. }
  assert (IZR M0 * bpow e1 - x = (IZR M0 - x * bpow (- e1)) * bpow e1)%R.
  { rewrite Hx' at 1. ring. }
  rewrite H. split; nra.
Qed.

(** ** Multiplication and division *)

Lemma Zdigits2_le m k : 0 < m -> m < 2 ^ k -> Zdigits2 m <= k.
Proof.
  intros H0 Hm. pose proof (Zdigits2_bounds m H0) as [Hlo _].
  destruct (Z_lt_le_dec k (Zdigits2 m)); [|assumption].
  assert (0 <= k).
  { destruct (Z_lt_le_dec k 0); [|assumption]. rewrite Z.pow_neg_r in Hm by assumption. lia. }
  assert (2 ^ k <= 2 ^ (Zdigits2 m - 1)) by (apply Z.pow_le_mono_r; lia). lia.
Qed.

Lemma half_ulp_rel M E :
  2 ^ 52 <= M -> (bpow E / 2 <= IZR M * bpow E * / 9007199254740992)%R.
Proof.
  intros HM. apply IZR_le in HM. change (2 ^ 52) with 4503599627370496 in HM.
  pose proof (bpow_pos E). nra.
Qed.

Lemma mul_correct mx ex my ey :
  mant mx -> mant my -> -1074 <= ex + ey -> ex + ey + 54 <= 971 ->
  exists M E,
    SFmul 53 1024 (S754_finite false mx ex) (S754_finite false my ey)
      = S754_finite false M E
    /\ mant M
    /\ ex + ey + 52 <= E <= ex + ey + 54
    /\ (- (bpow E / 2)
        <= IZR (Zpos M) * bpow E - (IZR (Zpos mx) * bpow ex) * (IZR (Zpos my) * bpow ey)
        <= bpow E / 2)%R.
Proof.
  unfold mant. intros Hx Hy Hlo Hhi.
  assert (Hp : 2 ^ 104 <= Zpos mx * Zpos my < 2 ^ 106).
  { change (2 ^ 104) with (2 ^ 52 * 2 ^ 52). change (2 ^ 106) with (2 ^ 53 * 2 ^ 53). nia. }
  assert (Hd : 105 <= Zdigits2 (Zpos mx * Zpos my) <= 106).
  { split; [apply (Zdigits2_ge _ 104); lia | apply Zdigits2_le; lia]. }
  destruct (binary_round_aux_correct false (Zpos mx * Zpos my) (ex + ey) loc_Exact
              ((IZR (Zpos mx) * bpow ex) * (IZR (Zpos my) * bpow ey))%R)
    as (M & E & HE & HM & HEb & Herr); try lia.
  { replace ((IZR (Zpos mx) * bpow ex) * (IZR (Zpos my) * bpow ey) * bpow (- (ex + ey)))%R
      with (IZR (Zpos mx * Zpos my)).
    - apply inbetween_of_loc_exact.
    - rewrite mult_IZR. 
      pose proof (bpow_cancel (ex + ey)) as Hc. rewrite bpow_add in Hc at 1.
      transitivity (IZR (Zpos mx) * IZR (Zpos my) * (bpow ex * bpow ey * bpow (- (ex + ey))))%R.
      + rewrite Hc. ring.
      + ring. }
  exists M, E. split; [exact HE|]. split; [exact HM|]. split; [lia|exact Herr].
Qed.

Lemma new_location_spec my q r :
  0 < my -> 0 <= r < my ->
  inbetween (IZR q + IZR r / IZR my) (shr_record_of_loc q (new_location my r)).
Proof.
  intros Hmy Hr.
  assert (Hmy' : (0 < IZR my)%R) by (apply IZR_lt; assumption).
  set (t := (IZR r / IZR my)%R).
  assert (Ht : (t * IZR my = IZR r)%R) by (unfold t; field; lra).
  assert (Hr0 : (0 <= IZR r)%R) by (apply IZR_le; lia).
  assert (Hr1 : (IZR r < IZR my)%R) by (apply IZR_lt; lia).
  unfold new_location.
  destruct (Z.even my) eqn:Hev.
  - unfold new_location_even. destruct (Z.eqb_spec r 0) as [->|Hne].
    + unfold inbetween; simpl. nra.
    + assert (Hr2 : (0 < IZR r)%R) by (apply IZR_lt; lia).
      destruct (Z.compare_spec (2 * r) my) as [Heq|Hlt|Hgt].
      * apply (f_equal IZR) in Heq. rewrite mult_IZR in Heq.
        unfold inbetween; simpl. nra.
      * apply IZR_lt in Hlt. rewrite mult_IZR in Hlt.
        unfold inbetween; simpl. split; nra.
      * apply IZR_lt in Hgt. rewrite mult_IZR in Hgt.
        unfold inbetween; simpl. split; nra.
  - unfold new_location_odd. destruct (Z.eqb_spec r 0) as [->|Hne].
    + unfold inbetween; simpl. nra.
    + assert (Hr2 : (0 < IZR r)%R) by (apply IZR_lt; lia).
      assert (Hodd : my <> 2 * r).
      { intros ->. rewrite Z.even_mul in Hev. discriminate. }
      destruct (Z.compare_spec (2 * r + 1) my) as [Heq|Hlt|Hgt].
      * assert (Hlt : 2 * r < my) by lia.
        apply IZR_lt in Hlt. rewrite mult_IZR in Hlt.
        unfold inbetween; simpl. split; nra.
      * assert (Hlt' : 2 * r < my) by lia.
        apply IZR_lt in Hlt'. rewrite mult_IZR in Hlt'.
        unfold inbetween; simpl. split; nra.
      * assert (Hgt' : my < 2 * r) by lia.
        apply IZR_lt in Hgt'. rewrite mult_IZR in Hgt'.
        unfold inbetween; simpl. split; nra.
Qed.

Lemma div_correct mx ex my ey :
  mant mx -> mant my -> -1021 <= ex - ey -> ex - ey - 51 <= 971 ->
  exists M E,
    SFdiv 53 1024 (S754_finite false mx ex) (S754_finite false my ey)
      = S754_finite false M E
    /\ mant M
    /\ ex - ey - 53 <= E <= ex - ey - 51
    /\ (- (bpow E / 2)
        <= IZR (Zpos M) * bpow E - (IZR (Zpos mx) * bpow ex) / (IZR (Zpos my) * bpow ey)
        <= bpow E / 2)%R.
Proof.
  unfold mant. intros Hx Hy Hlo Hhi.
  unfold SFdiv, SFdiv_core_binary.
  rewrite (Zdigits2_unique (Zpos mx) 53) by lia.
  rewrite (Zdigits2_unique (Zpos my) 53) by lia.
  replace (53 + ex - (53 + ey)) with (ex - ey) by ring.
  rewrite fexp_normal by lia.
  rewrite Z.min_l by lia.
  replace (ex - ey - (ex - ey - 53)) with 53 by ring.
  cbv iota.
  rewrite Z.shiftl_mul_pow2 by lia.
  pose proof (Z_div_mod (Zpos mx * 2 ^ 53) (Zpos my) ltac:(lia)) as Hdm.
  destruct (Z.div_eucl (Zpos mx * 2 ^ 53) (Zpos my)) as [q r].
  destruct Hdm as [Hq Hr].
  assert (Hqb : 2 ^ 52 <= q < 2 ^ 54).
  { change (2 ^ 53) with 9007199254740992 in *. change (2 ^ 52) with 4503599627370496 in *.
    change (2 ^ 54) with 18014398509481984. nia. }
  assert (Hd : 53 <= Zdigits2 q <= 54).
  { split; [apply (Zdigits2_ge _ 52); lia | apply Zdigits2_le; lia]. }
  cbv [xorb].
  destruct (binary_round_aux_correct false q (ex - ey - 53) (new_location (Zpos my) r)
              ((IZR (Zpos mx) * bpow ex) / (IZR (Zpos my) * bpow ey))%R)
    as (M & E & HE & HM & HEb & Herr); try lia.
  { replace ((IZR (Zpos mx) * bpow ex) / (IZR (Zpos my) * bpow ey) * bpow (- (ex - ey - 53)))%R
      with (IZR q + IZR r / IZR (Zpos my))%R.
    - apply new_location_spec; lia.
    - assert (Hmy : (0 < IZR (Zpos my))%R) by (apply IZR_lt; lia).
      pose proof (bpow_pos ey) as Hey. pose proof (bpow_pos ex) as Hex.
      apply (f_equal IZR) in Hq. rewrite plus_IZR, !mult_IZR in Hq.
      replace (- (ex - ey - 53)) with (- ex + ey + 53) by ring.
      rewrite !bpow_add. rewrite bpow_opp. rewrite (bpow_IZR 53) by lia.
      transitivity (IZR (Zpos mx) * IZR (2 ^ 53) / IZR (Zpos my))%R.
      + rewrite Hq. field. lra.
      + field. lra. }
  exists M, E. split; [exact HE|]. split; [exact HM|]. split; [lia|exact Herr].
Qed.

(** ** Exact operations *)

Lemma binary_round_aux_exact s p e :
  mant p -> -1074 <= e <= 971 ->
  binary_round_aux 53 1024 s (Zpos p) e loc_Exact = S754_finite s p e.
Proof.
  unfold mant. intros Hp He.
  assert (Hd : Zdigits2 (Zpos p) = 53) by (apply Zdigits2_unique; lia).
  assert (Hs : shr_fexp 53 1024 (Zpos p) e loc_Exact
               = (shr_record_of_loc (Zpos p) loc_Exact, e)).
  { unfold shr_fexp. rewrite Hd, fexp_normal by lia.
    replace (53 + e - 53 - e) with 0 by ring. reflexivity. }
  unfold binary_round_aux. rewrite Hs. cbn [shr_record_of_loc shr_m loc_of_shr_record round_nearest_even].
  rewrite Hs. cbn [shr_record_of_loc shr_m].
  change (1024 - 53) with 971.
  destruct (Z.leb_spec e 971); [reflexivity|lia].
Qed.

Lemma iter_xO p k : Zpos (Pos.iter xO p k) = Zpos p * 2 ^ Zpos k.
Proof.
  induction k as [|k IH] using Pos.peano_ind.
  - simpl. lia.
  - rewrite Pos.iter_succ, Pos2Z.inj_xO, IH, Pos2Z.inj_succ, Z.pow_succ_r by lia. ring.
Qed.

(** Rounding a mantissa of at most 53 bits changes nothing but the
    representation: the mantissa is shifted up to 53 bits. *)
Lemma binary_round_exact s p e :
  Zpos (digits2_pos p) <= 53 ->
  -1074 <= e + Zpos (digits2_pos p) - 53 <= 971 ->
  exists M,
    binary_round 53 1024 s p e
      = S754_finite s M (e + Zpos (digits2_pos p) - 53)
    /\ mant M
    /\ Zpos M = Zpos p * 2 ^ (53 - Zpos (digits2_pos p)).
Proof.
  intros Hd He. pose proof (digits2_bounds p) as Hb.
  set (d := Zpos (digits2_pos p)) in *.
  unfold binary_round. fold d. rewrite fexp_normal by lia.
  unfold shl_align.
  destruct (d + e - 53 - e) as [|k|k] eqn:Ek; try lia.
  - assert (d = 53) by lia.
    exists p. replace (e + d - 53) with e by lia.
    assert (mant p) by (unfold mant; rewrite H in Hb; exact Hb).
    split; [apply binary_round_aux_exact; [assumption|lia]|].
    split; [assumption|]. rewrite H. simpl. lia.
  - assert (Hk : Zpos k = 53 - d) by lia.
    assert (HM : mant (Pos.iter xO p k)).
    { unfold mant. rewrite iter_xO, Hk.
      replace (2 ^ 53) with (2 ^ (d + (53 - d))) by (f_equal; lia).
      replace (2 ^ 52) with (2 ^ (d - 1 + (53 - d))) by (f_equal; lia).
      assert (0 < d) by (unfold d; lia).
      rewrite !Z.pow_add_r by lia.
      assert (0 < 2 ^ (53 - d)) by (apply Z.pow_pos_nonneg; lia). nia. }
    exists (Pos.iter xO p k).
    split; [|split; [assumption|rewrite iter_xO, Hk; reflexivity]].
    replace (d + e - 53) with (e + d - 53) by ring.
    apply binary_round_aux_exact; [assumption|lia].
Qed.

Lemma B2R_pos m e : B2R (S754_finite false m e) = (IZR (Zpos m) * bpow e)%R.
Proof. reflexivity. Qed.

(** The rational value and the real value of a [double] agree. *)
Lemma to_Q_B2R x : Q2R (Double.to_Q x) = B2R x.
Proof.
  destruct x as [s|s| |s m e]; try (unfold Q2R; simpl; lra).
  unfold Double.to_Q, B2R. destruct e as [|k|k].
  - unfold Q2R, inject_Z, bpow. simpl. rewrite Z.mul_1_r. lra.
  - unfold Q2R, inject_Z. cbn [Qnum Qden]. rewrite mult_IZR, <- bpow_IZR by lia. lra.
  - unfold Q2R. cbn [Qnum Qden]. rewrite Pos2Z.inj_pow.
    change (Zneg k) with (- Zpos k). rewrite bpow_opp, bpow_IZR by lia. reflexivity.
Qed.

(** Conversion of a positive integer below 2^53 is exact. *)
Lemma of_Z_exact n :
  0 < n < 2 ^ 53 ->
  exists M,
    binary_normalize 53 1024 n 0 false = S754_finite false M (Zdigits2 n - 53)
    /\ mant M
    /\ Zpos M = n * 2 ^ (53 - Zdigits2 n)
    /\ (IZR (Zpos M) * bpow (Zdigits2 n - 53) = IZR n)%R.
Proof.
  intros Hn. destruct n as [|p|p]; try lia.
  assert (Hd : Zdigits2 (Zpos p) <= 53) by (apply Zdigits2_le; lia).
  assert (Hd0 : 0 < Zdigits2 (Zpos p)) by (simpl; lia).
  simpl Zdigits2 in *. simpl binary_normalize.
  destruct (binary_round_exact false p 0 Hd ltac:(lia)) as (M & HE & HM & HV).
  exists M. split; [exact HE|]. split; [exact HM|]. split; [exact HV|].
  rewrite HV, mult_IZR, <- bpow_IZR by lia.
  rewrite Rmult_assoc, <- bpow_add.
  replace (53 - Zpos (digits2_pos p) + (Zpos (digits2_pos p) - 53)) with 0 by ring.
  unfold bpow; simpl; ring.
Qed.

(** Truncation of a positive number with a negative exponent. *)
Lemma truncate_pos m e :
  e < 0 ->
  Double.truncate (S754_finite false m e) = Some (Zpos m / 2 ^ (- e))
  /\ (IZR (Zpos m / 2 ^ (- e)) <= IZR (Zpos m) * bpow e
      < IZR (Zpos m / 2 ^ (- e)) + 1)%R.
Proof.
  intros He. destruct e as [|k|k]; try lia.
  split.
  - simpl. rewrite Z.shiftr_div_pow2 by lia. reflexivity.
  - change (- Zneg k) with (Zpos k).
    assert (H2 : 0 < 2 ^ Zpos k) by (apply Z.pow_pos_nonneg; lia).
    pose proof (Z_div_mod_eq_full (Zpos m) (2 ^ Zpos k)) as Hdm.
    pose proof (Z.mod_pos_bound (Zpos m) (2 ^ Zpos k) H2) as Hmod.
    set (q := Zpos m / 2 ^ Zpos k) in *.
    set (r := Zpos m mod 2 ^ Zpos k) in *.
    change (Zneg k) with (- Zpos k). rewrite bpow_opp, bpow_IZR by lia.
    assert (Hp : (0 < IZR (2 ^ Zpos k))%R) by (apply IZR_lt; assumption).
    assert (Hr0 : (0 <= IZR r)%R) by (apply IZR_le; lia).
    assert (Hr1 : (IZR r < IZR (2 ^ Zpos k))%R) by (apply IZR_lt; lia).
    apply (f_equal IZR) in Hdm. rewrite plus_IZR, mult_IZR in Hdm.
    rewrite Hdm.
    replace ((IZR (2 ^ Zpos k) * IZR q + IZR r) * / IZR (2 ^ Zpos k))%R
      with (IZR q + IZR r * / IZR (2 ^ Zpos k))%R by (field; lra).
    assert (Hi : (0 < / IZR (2 ^ Zpos k))%R) by (apply Rinv_0_lt_compat; assumption).
    assert (Hc : (IZR (2 ^ Zpos k) * / IZR (2 ^ Zpos k) = 1)%R) by (field; lra).
    split; nra.
Qed.

Lemma to_uint32_of_truncate x n :
  Double.truncate x = Some n -> 0 <= n < 2 ^ 32 -> Double.to_uint32 x = Some n.
Proof.
  intros Ht Hn. unfold Double.to_uint32. rewrite Ht.
  destruct (Z.leb_spec 0 n); [|lia]. destruct (Z.ltb_spec n (2 ^ 32)); [|lia]. reflexivity.
Qed.

(** Subtracting its own integer part from a normal number is exact: what
    is left is the low [-e] bits of the mantissa. *)
Lemma sub_integer_part m e :
  mant m -> -52 <= e <= -1 ->
  let a := Zpos m / 2 ^ (- e) in
  let D := Zpos m mod 2 ^ (- e) in
  (D = 0 /\ Double.sub (S754_finite false m e) (Double.of_uint32 a) = S754_zero false)
  \/ (0 < D /\ exists M E,
        Double.sub (S754_finite false m e) (Double.of_uint32 a) = S754_finite false M E
        /\ mant M /\ -105 <= E <= e
        /\ (IZR (Zpos M) * bpow E = IZR D * bpow e)%R).
Proof.
  intros Hm He a D. unfold mant in Hm.
  set (k := - e) in *.
  assert (H2 : 0 < 2 ^ k) by (apply Z.pow_pos_nonneg; lia).
  pose proof (Z_div_mod_eq_full (Zpos m) (2 ^ k)) as Hdm. fold a D in Hdm.
  pose proof (Z.mod_pos_bound (Zpos m) (2 ^ k) H2) as Hmod. fold D in Hmod.
  assert (Ha : 2 ^ (52 - k) <= a < 2 ^ (53 - k)).
  { split.
    - apply Z.div_le_lower_bound; [assumption|]. rewrite <- Z.pow_add_r by lia.
      replace (k + (52 - k)) with 52 by ring. lia.
    - apply Z.div_lt_upper_bound; [assumption|]. rewrite <- Z.pow_add_r by lia.
      replace (k + (53 - k)) with 53 by ring. lia. }
  assert (Ha0 : 0 < a) by (assert (0 < 2 ^ (52 - k)) by (apply Z.pow_pos_nonneg; lia); lia).
  assert (Hda : Zdigits2 a = 53 - k).
  { apply Zdigits2_unique; [assumption|]. replace (53 - k - 1) with (52 - k) by ring. assumption. }
  assert (Ha53 : a < 2 ^ 53).
  { assert (2 ^ (53 - k) <= 2 ^ 53) by (apply Z.pow_le_mono_r; lia). lia. }
  destruct (of_Z_exact a ltac:(lia)) as (Ma & HEa & HMa & HVa & _).
  rewrite Hda in HEa, HVa.
  replace (53 - k - 53) with e in HEa by (unfold k; ring).
  replace (53 - (53 - k)) with k in HVa by ring.
  unfold Double.sub, Double.of_uint32. fold Double.prec Double.emax.
  change Double.prec with 53. change Double.emax with 1024.
  rewrite HEa. unfold SFsub.
  rewrite Z.min_id. unfold shl_align. rewrite Z.sub_diag. cbn [fst cond_Zopp].
  rewrite HVa.
  assert (HD : Zpos m - a * 2 ^ k = D) by lia.
  rewrite HD.
  destruct (Z.eq_dec D 0) as [HD0|HD0].
  - left. split; [assumption|]. rewrite HD0. reflexivity.
  - right. split; [lia|].
    destruct D as [|pD|pD] eqn:ED; try lia.
    simpl binary_normalize.
    pose proof (digits2_bounds pD) as HbD.
    assert (HdD : Zpos (digits2_pos pD) <= k).
    { change (Zpos (digits2_pos pD)) with (Zdigits2 (Zpos pD)). apply Zdigits2_le; lia. }
    destruct (binary_round_exact false pD e ltac:(lia) ltac:(lia)) as (M & HE & HM & HV).
    exists M, (e + Zpos (digits2_pos pD) - 53).
    split; [exact HE|]. split; [exact HM|]. split; [lia|].
    rewrite HV, mult_IZR, <- bpow_IZR by lia.
    rewrite Rmult_assoc, <- bpow_add. f_equal. f_equal. ring.
Qed.

(** ** The calculation of the feedback multisynth *)

Lemma CorrFact_eq : CorrFact = S754_finite false 9004119846438183 (-53).
Proof. vm_compute. reflexivity. Qed.

Lemma CorrFact_nearest :
  2 * Z.abs (9004119846438183 * 10 ^ 9 - 999658117 * 2 ^ 53) <= 10 ^ 9.
Proof. vm_compute. discriminate. Qed.

Lemma lit_6_0_eq : lit_6_0 = S754_finite false 6755399441055744 (-50).
Proof. vm_compute. reflexivity. Qed.

Lemma lit_25000000_0_eq : lit_25000000_0 = S754_finite false 6710886400000000 (-28).
Proof. vm_compute. reflexivity. Qed.

Lemma MSNAc_double_eq :
  Double.of_uint32 MSNAc = S754_finite false 9007190664806400 (-33).
Proof. vm_compute. reflexivity. Qed.

Lemma bpow_Zneg p : bpow (Zneg p) = (/ IZR (2 ^ Zpos p))%R.
Proof. change (Zneg p) with (- Zpos p). rewrite bpow_opp, bpow_IZR by lia. reflexivity. Qed.

Lemma MSNA_expr_correct f :
  1 <= f < 2 ^ 32 ->
  exists m e,
    MSNA_expr f = S754_finite false m e
    /\ mant m /\ -76 <= e <= -39
    /\ (IZR f * (999658117 / 1000000000 * 6 / 25000000) * (1 - / 1125899906842624)
        <= IZR (Zpos m) * bpow e
        <= IZR f * (999658117 / 1000000000 * 6 / 25000000) * (1 + / 1125899906842624))%R.
Proof.
  intros Hf.
  assert (Hf53 : 0 < f < 2 ^ 53) by (change (2 ^ 53) with 9007199254740992; change (2 ^ 32) with 4294967296 in Hf; lia).
  assert (Hd : 1 <= Zdigits2 f <= 32).
  { split; [apply (Zdigits2_ge f 0); lia | apply Zdigits2_le; lia]. }
  destruct (of_Z_exact f Hf53) as (m0 & E0 & M0 & _ & V0).
  set (e0 := Zdigits2 f - 53) in *.
  unfold MSNA_expr, Double.of_uint32, Double.mul, Double.div.
  change Double.prec with 53. change Double.emax with 1024.
  rewrite E0, CorrFact_eq, lit_6_0_eq, lit_25000000_0_eq.
  destruct (mul_correct m0 e0 9004119846438183 (-53) M0 ltac:(unfold mant; lia)
              ltac:(unfold e0; lia) ltac:(unfold e0; lia))
    as (m1 & e1 & E1 & M1 & B1 & R1).
  rewrite E1.
  destruct (mul_correct m1 e1 6755399441055744 (-50) M1 ltac:(unfold mant; lia)
              ltac:(unfold e0 in B1; lia) ltac:(unfold e0 in B1; lia))
    as (m2 & e2 & E2 & M2 & B2 & R2).
  rewrite E2.
  destruct (div_correct m2 e2 6710886400000000 (-28) M2 ltac:(unfold mant; lia)
              ltac:(unfold e0 in B1; lia) ltac:(unfold e0 in B1; lia))
    as (m3 & e3 & E3 & M3 & B3 & R3).
  rewrite E3.
  exists m3, e3. split; [reflexivity|]. split; [exact M3|]. split; [unfold e0 in B1; lia|].
  pose proof (half_ulp_rel (Zpos m1) e1 ltac:(unfold mant in M1; lia)) as U1.
  pose proof (half_ulp_rel (Zpos m2) e2 ltac:(unfold mant in M2; lia)) as U2.
  pose proof (half_ulp_rel (Zpos m3) e3 ltac:(unfold mant in M3; lia)) as U3.
  rewrite V0 in R1.
  rewrite (bpow_Zneg 53) in R1.
  rewrite (bpow_Zneg 50) in R2.
  rewrite (bpow_Zneg 28) in R3.
  change (2 ^ 53) with 9007199254740992 in R1.
  change (2 ^ 50) with 1125899906842624 in R2.
  change (2 ^ 28) with 268435456 in R3.
  set (v1 := (IZR (Zpos m1) * bpow e1)%R) in *.
  set (v2 := (IZR (Zpos m2) * bpow e2)%R) in *.
  set (v3 := (IZR (Zpos m3) * bpow e3)%R) in *.
  set (b1 := bpow e1) in *. set (b2 := bpow e2) in *. set (b3 := bpow e3) in *.
  assert (Hfr : (1 <= IZR f)%R) by (apply IZR_le; lia).
  replace (v2 / (6710886400000000 * / 268435456))%R with (v2 / 25000000)%R in R3 by (field).
  split; lra.
Qed.

(** The product of a fraction below one with [(double)MSNAc] rounds to
    less than [MSNAc], and its integer part is within one of the exact
    product. *)
Lemma fraction_times_MSNAc M E :
  mant M -> -105 <= E -> (IZR (Zpos M) * bpow E < 1)%R ->
  exists b,
    Double.to_uint32
      (Double.mul (S754_finite false M E) (Double.of_uint32 MSNAc)) = Some b
    /\ 0 <= b < MSNAc
    /\ (IZR (Zpos M) * bpow E * 1048575 - 1 - / 17179869184 < IZR b
        <= IZR (Zpos M) * bpow E * 1048575 + / 17179869184)%R.
Proof.
  intros HM HE Hlt.
  set (fr := (IZR (Zpos M) * bpow E)%R) in *.
  assert (HMr : (4503599627370496 <= IZR (Zpos M) <= 9007199254740991)%R).
  { unfold mant in HM. split; apply IZR_le; [change 4503599627370496 with (2 ^ 52) | change 9007199254740991 with (2 ^ 53 - 1)]; lia. }
  assert (HE53 : E <= -53).
  { assert (H : E < -52); [|lia]. apply bpow_lt_inv.
    rewrite (bpow_Zneg 52). change (2 ^ 52) with 4503599627370496.
    pose proof (bpow_pos E). unfold fr in Hlt. nra. }
  assert (Hfr : (0 < fr <= 1 - / 9007199254740992)%R).
  { pose proof (bpow_pos E) as Hp. pose proof (bpow_le E (-53) HE53) as Hle.
    rewrite (bpow_Zneg 53) in Hle. change (2 ^ 53) with 9007199254740992 in Hle.
    unfold fr. split; nra. }
  rewrite MSNAc_double_eq. unfold Double.mul.
  change Double.prec with 53. change Double.emax with 1024.
  destruct (mul_correct M E 9007190664806400 (-33) HM ltac:(unfold mant; lia)
              ltac:(lia) ltac:(lia))
    as (m4 & e4 & E4 & M4 & B4 & R4).
  rewrite E4. fold fr in R4.
  rewrite (bpow_Zneg 33) in R4. change (2 ^ 33) with 8589934592 in R4.
  replace (9007190664806400 * / 8589934592)%R with 1048575%R in R4 by field.
  pose proof (half_ulp_rel (Zpos m4) e4 ltac:(unfold mant in M4; lia)) as U4.
  set (v4 := (IZR (Zpos m4) * bpow e4)%R) in *.
  assert (Hm4 : (4503599627370496 <= IZR (Zpos m4))%R).
  { unfold mant in M4. apply IZR_le. change 4503599627370496 with (2 ^ 52). lia. }
  assert (He4 : e4 <= -33).
  { assert (H : e4 < -32); [|lia]. apply bpow_lt_inv.
    rewrite (bpow_Zneg 32). change (2 ^ 32) with 4294967296.
    pose proof (bpow_pos e4). unfold v4 in *. nra. }
  pose proof (bpow_le e4 (-33) He4) as Hb4.
  rewrite (bpow_Zneg 33) in Hb4. change (2 ^ 33) with 8589934592 in Hb4.
  destruct (truncate_pos m4 e4 ltac:(lia)) as [Ht Hfl]. fold v4 in Hfl.
  set (b := Zpos m4 / 2 ^ (- e4)) in *.
  assert (Hb0 : 0 <= b).
  { apply Z.div_pos; [lia|]. apply Z.pow_pos_nonneg; lia. }
  assert (Hbc : b < MSNAc).
  { apply lt_IZR. unfold MSNAc. lra. }
  exists b. split.
  - apply to_uint32_of_truncate; [exact Ht|]. unfold MSNAc in Hbc. lia.
  - split; [lia|]. lra.
Qed.

Lemma calc_MSNA_unfold f a b :
  Double.to_uint32 (MSNA_expr f) = Some a ->
  Double.to_uint32
    (Double.mul (Double.sub (MSNA_expr f) (Double.of_uint32 a))
                (Double.of_uint32 MSNAc)) = Some b ->
  calc_MSNA f =
    Some {| MSNA := MSNA_expr f; MSNAa := a; MSNAb := b;
            MSNA_P1 := sub32 (add32 (mul32 128 a) (div32 (mul32 128 b) MSNAc)) 512;
            MSNA_P2 := sub32 (mul32 128 b) (mul32 MSNAc (div32 (mul32 128 b) MSNAc));
            MSNA_P3 := MSNAc |}.
Proof.
  intros Ha Hb. unfold calc_MSNA.
  rewrite Ha. cbn [obind]. rewrite Hb. reflexivity.
Qed.

Lemma calc_MSNA_zero : exists r, calc_MSNA 0 = Some r /\ MSNA_spec 0 r.
Proof.
  eexists. split; [vm_compute; reflexivity|].
  unfold MSNA_spec. cbn [MSNA MSNAa MSNAb MSNA_P1 MSNA_P2 MSNA_P3 B2R].
  split; [vm_compute; reflexivity|].
  repeat split; try reflexivity; try (unfold MSNAc; lia); try lra.
Qed.

Theorem calc_MSNA_correct f :
  0 <= f < 2 ^ 32 -> exists r, calc_MSNA f = Some r /\ MSNA_spec f r.
Proof.
  intros Hf. destruct (Z.eq_dec f 0) as [->|Hf0]; [apply calc_MSNA_zero|].
  destruct (MSNA_expr_correct f ltac:(lia)) as (m & e & Em & Mm & Be & Rv).
  set (v := (IZR (Zpos m) * bpow e)%R) in *.
  assert (Hfr : (1 <= IZR f <= 4294967295)%R).
  { split; apply IZR_le; [lia|]. change (2 ^ 32) with 4294967296 in Hf. lia. }
  destruct (truncate_pos m e ltac:(lia)) as [Ht Hfl]. fold v in Hfl.
  set (a := Zpos m / 2 ^ (- e)) in *.
  assert (H2k : 0 < 2 ^ (- e)) by (apply Z.pow_pos_nonneg; lia).
  assert (Ha0 : 0 <= a) by (apply Z.div_pos; lia).
  assert (Ha1 : a < 1031) by (apply lt_IZR; lra).
  assert (Hta : Double.to_uint32 (MSNA_expr f) = Some a).
  { rewrite Em. apply to_uint32_of_truncate; [exact Ht|]. change (2 ^ 32) with 4294967296. lia. }
  assert (Hfrac : exists b,
    Double.to_uint32
      (Double.mul (Double.sub (MSNA_expr f) (Double.of_uint32 a))
                  (Double.of_uint32 MSNAc)) = Some b
    /\ 0 <= b < MSNAc
    /\ ((v - IZR a) * 1048575 - 1 - / 17179869184 < IZR b
        <= (v - IZR a) * 1048575 + / 17179869184)%R).
  { rewrite Em. destruct (Z_lt_le_dec e (-52)) as [Hsmall|Hbig].
    - (* the number is below one: its integer part is zero *)
      assert (Ea : a = 0).
      { apply Z.div_small. unfold mant in Mm. split; [lia|].
        assert (2 ^ 53 <= 2 ^ (- e)) by (apply Z.pow_le_mono_r; lia). lia. }
      rewrite Ea in *.
      change (Double.sub (S754_finite false m e) (Double.of_uint32 0))
        with (S754_finite false m e).
      destruct (fraction_times_MSNAc m e Mm ltac:(lia) ltac:(fold v; lra))
        as (b & Hb & Hbr & Hbv).
      fold v in Hbv. exists b. split; [exact Hb|]. split; [exact Hbr|]. lra.
    - destruct (sub_integer_part m e Mm ltac:(lia)) as [[HD Hs]|[HD (M & E & Hs & HM & HE & HV)]];
        fold a in Hs.
      + rewrite Hs. exists 0. split; [vm_compute; reflexivity|].
        split; [unfold MSNAc; lia|].
        assert (Hva : v = IZR a).
        { pose proof (Z_div_mod_eq_full (Zpos m) (2 ^ (- e))) as Hdm.
          fold a in Hdm. rewrite HD, Z.add_0_r in Hdm.
          unfold v. rewrite Hdm, mult_IZR, <- bpow_IZR by lia.
          rewrite (Rmult_comm (bpow (- e))), Rmult_assoc.
          rewrite (Rmult_comm (bpow (- e))), bpow_cancel. ring. }
        rewrite Hva. lra.
      + rewrite Hs.
        assert (Hva : (IZR (Zpos M) * bpow E = v - IZR a)%R).
        { rewrite HV.
          pose proof (Z_div_mod_eq_full (Zpos m) (2 ^ (- e))) as Hdm. fold a in Hdm.
          unfold v. rewrite Hdm at 2. rewrite plus_IZR, mult_IZR, <- bpow_IZR by lia.
          pose proof (bpow_cancel e) as Hc. 
          transitivity (IZR a * (bpow e * bpow (- e)) + IZR (Zpos m mod 2 ^ (- e)) * bpow e - IZR a)%R.
          - rewrite Hc. ring.
          - ring. }
        destruct (fraction_times_MSNAc M E HM ltac:(lia) ltac:(rewrite Hva; lra))
          as (b & Hb & Hbr & Hbv).
        rewrite Hva in Hbv. exists b. split; [exact Hb|]. split; [exact Hbr|]. exact Hbv. }
  destruct Hfrac as (b & Htb & Hbr & Hbv).
  eexists. split; [apply (calc_MSNA_unfold f a b Hta Htb)|].
  unfold MSNA_spec. cbn [MSNA MSNAa MSNAb MSNA_P1 MSNA_P2 MSNA_P3].
  rewrite Em. cbn [B2R cond_Zopp]. fold v.
  repeat split; try assumption; try lia; try lra.
Qed.

(** * The write sequence *)

Section EmitsFacts.

Variable World : Type.
Variable respond : World -> call -> World * Z.

Lemma emits_ret {A : Type} (a : A) : emits World (ret World a) [].
Proof.
  intros [w t]. exists a, w. unfold ret. simpl. rewrite app_nil_r. reflexivity.
Qed.

Lemma emits_extern c : emits World (extern World respond c) [c].
Proof.
  intros s. unfold extern. destruct (respond (world s) c) as [w r].
  exists r, w. reflexivity.
Qed.

Lemma emits_bind {A B : Type} (m : M World A) (k : A -> M World B) cs1 cs2 :
  emits World m cs1 -> (forall a, emits World (k a) cs2) ->
  emits World (bind World m k) (cs1 ++ cs2).
Proof.
  intros Hm Hk s. destruct (Hm s) as (a & w & E).
  destruct (Hk a {| world := w; trace := trace s ++ cs1 |}) as (b & w' & E').
  exists b, w'. unfold bind. rewrite E, E'. simpl. rewrite app_assoc. reflexivity.
Qed.

Lemma emits_defined {A B : Type} (o : option A) (a : A) (k : A -> M World B) cs :
  o = Some a -> emits World (k a) cs ->
  emits World (bind World (defined World o) k) cs.
Proof.
  intros -> Hk s. destruct (Hk s) as (b & w & E).
  exists b, w. unfold bind, defined. exact E.
Qed.

(** One step of a proof about a sequence of calls: the first call, a
    one-byte write or an eight-byte burst, then the rest. *)
Ltac emit_call :=
  apply (emits_bind _ _ [_] _); [apply emits_extern | intros _].

Lemma emits_I2CFlexiWrite1 reg b0 :
  emits World (I2CFlexiWrite1 World respond reg b0) (transaction reg [b0]).
Proof.
  unfold I2CFlexiWrite1, I2CFlexiWrite, transaction.
  do 3 emit_call.
  apply (emits_bind _ _ [] _); [apply emits_ret | intros _].
  emit_call. apply emits_ret.
Qed.

Lemma emits_I2CFlexiWrite8 reg b0 b1 b2 b3 b4 b5 b6 b7 :
  emits World (I2CFlexiWrite World respond reg b0 true b1 b2 b3 b4 b5 b6 b7)
        (transaction reg [b0; b1; b2; b3; b4; b5; b6; b7]).
Proof.
  unfold I2CFlexiWrite, transaction.
  do 3 emit_call.
  apply (emits_bind _ _ (map write [b1; b2; b3; b4; b5; b6; b7]) [endTransmission]).
  - do 7 emit_call. apply emits_ret.
  - intros _. apply (emits_bind _ _ [_] []); [apply emits_extern | intros _].
    apply emits_ret.
Qed.

Ltac emit_write1 :=
  apply emits_bind; [apply emits_I2CFlexiWrite1 | intros _].
Ltac emit_write8 :=
  apply emits_bind; [apply emits_I2CFlexiWrite8 | intros _].

(** One call of [set_freq_Hz] makes exactly the calls of [programme]. *)
Lemma emits_set_freq_Hz f r :
  calc_MSNA f = Some r ->
  emits World (set_freq_Hz World respond f) (calls_of_list (programme r)).
Proof.
  intros Hr. unfold set_freq_Hz, programme, calls_of_list.
  cbn [flat_map calls_of].
  emit_write1. emit_write1. emit_write8.
  emit_write1. emit_write1. emit_write8.
  apply (emits_defined _ r); [exact Hr|].
  emit_write8. emit_write1.
  emit_call.
  emit_write1.
  rewrite app_nil_r. apply emits_I2CFlexiWrite1.
Qed.

Lemma run_set_freq_Hz_trace w f r :
  calc_MSNA f = Some r ->
  run_set_freq_Hz World respond w f = Some (calls_of_list (programme r)).
Proof.
  intros Hr. unfold run_set_freq_Hz.
  destruct (emits_set_freq_Hz f r Hr {| world := w; trace := [] |}) as (a & w' & E).
  rewrite E. reflexivity.
Qed.

End EmitsFacts.

(** * Consequences for the packed fields *)

(** ** Packing into P1, P2, P3 *)

Lemma packing a b :
  0 <= a < 2 ^ 25 -> 0 <= b < MSNAc ->
  let q := 128 * b / MSNAc in
  0 <= q < 128
  /\ sub32 (mul32 128 b) (mul32 MSNAc (div32 (mul32 128 b) MSNAc))
     = 128 * b - MSNAc * q
  /\ 0 <= 128 * b - MSNAc * q < MSNAc
  /\ sub32 (add32 (mul32 128 a) (div32 (mul32 128 b) MSNAc)) 512
     = (128 * a + q - 512) mod 2 ^ 32
  /\ (4 <= a ->
      sub32 (add32 (mul32 128 a) (div32 (mul32 128 b) MSNAc)) 512
      = 128 * a + q - 512).
Proof.
  intros Ha Hb q. unfold MSNAc in *.
  change (2 ^ 25) with 33554432 in Ha.
  assert (Hq : 0 <= q < 128).
  { unfold q. split; [apply Z.div_pos; lia|apply Z.div_lt_upper_bound; lia]. }
  pose proof (Z.mod_pos_bound (128 * b) 1048575 ltac:(lia)) as Hm.
  pose proof (Z_div_mod_eq_full (128 * b) 1048575) as Hdm. fold q in Hdm.
  unfold sub32, add32, mul32, div32, uint32.
  change (2 ^ 32) with 4294967296.
  rewrite (Z.mod_small (128 * b)) by lia. fold q.
  rewrite (Z.mod_small (128 * a)) by lia.
  rewrite (Z.mod_small (1048575 * q)) by lia.
  rewrite (Z.mod_small (128 * a + q)) by lia.
  split; [exact Hq|]. split; [apply Z.mod_small; lia|]. split; [lia|].
  split; [reflexivity|]. intros H4. apply Z.mod_small. lia.
Qed.

(** In the band the integer part of the ratio lies between 23 and 35. *)
Lemma in_band_MSNAa f r :
  in_band f -> MSNA_spec f r -> 23 <= MSNAa r <= 35.
Proof.
  unfold in_band, MSNA_spec. intros [Hlo Hhi] (_ & Hv & _ & Hfl & _).
  apply IZR_le in Hlo, Hhi.
  split.
  - assert (H : 22 < MSNAa r); [apply lt_IZR; lra | lia].
  - assert (H : MSNAa r < 36); [apply lt_IZR; lra | lia].
Qed.

Lemma MSNAa_bound f r :
  0 <= f < 2 ^ 32 -> MSNA_spec f r -> 0 <= MSNAa r < 1031.
Proof.
  unfold MSNA_spec. intros [Hlo Hhi] (_ & Hv & Ha & Hfl & _).
  split; [exact Ha|]. apply lt_IZR.
  apply IZR_le in Hlo. assert (Hhi' : f <= 4294967295) by (change (2 ^ 32) with 4294967296 in Hhi; lia).
  apply IZR_le in Hhi'. lra.
Qed.

Lemma Q2R_inject_Z z : Q2R (inject_Z z) = IZR z.
Proof. unfold Q2R, inject_Z. simpl. field. Qed.

Lemma Q2R_reconstructed_Hz a b c :
  c <> 0 ->
  Q2R (reconstructed_Hz a b c)
  = (25000000 * (IZR a + IZR b / IZR c) / 6 / (999658117 / 1000000000))%R.
Proof.
  intros Hc. unfold reconstructed_Hz.
  assert (Hc' : ~ (inject_Z c == 0)%Q).
  { unfold Qeq, inject_Z. simpl. lia. }
  rewrite !Q2R_div, Q2R_mult, Q2R_plus, Q2R_div, !Q2R_inject_Z by
    (first [exact Hc' | unfold Qeq, inject_Z; simpl; lia]).
  replace (Q2R (999658117 # 1000000000)) with (999658117 / 1000000000)%R
    by (unfold Q2R; simpl; reflexivity).
  reflexivity.
Qed.

Lemma round_trip f r :
  in_band f -> MSNA_spec f r ->
  (Qabs (reconstructed_Hz (MSNAa r) (MSNAb r) MSNAc - inject_Z f)
   <= inject_Z f / inject_Z (2 ^ 20))%Q.
Proof.
  intros Hband Hspec.
  pose proof (in_band_MSNAa f r Hband Hspec) as Ha.
  destruct Hband as [Hlo Hhi]. apply IZR_le in Hlo, Hhi.
  destruct Hspec as (_ & Hv & _ & Hfl & Hb & Hbv & _).
  set (v := B2R (MSNA r)) in *.
  apply Qabs_Qle_condition. 
  split; apply Rle_Qle.
  - rewrite Q2R_opp, Q2R_div, Q2R_minus, Q2R_reconstructed_Hz, !Q2R_inject_Z
      by (first [discriminate | unfold Qeq, inject_Z; simpl; lia]).
    change (2 ^ 20) with 1048576. unfold MSNAc.
    unfold Rdiv in *. lra.
  - rewrite Q2R_div, Q2R_minus, Q2R_reconstructed_Hz, !Q2R_inject_Z
      by (first [discriminate | unfold Qeq, inject_Z; simpl; lia]).
    change (2 ^ 20) with 1048576. unfold MSNAc.
    unfold Rdiv in *. lra.
Qed.


(** * The register frame *)

Lemma registers_of_Write_cons reg b data :
  registers_of (Write reg (b :: data)) = reg :: registers_of (Write (reg + 1) data).
Proof.
  unfold registers_of. cbn [length seq map]. rewrite Z.add_0_r. f_equal.
  rewrite <- seq_shift, map_map. apply map_ext. intros i. lia.
Qed.

Lemma store_burst_frame data : forall reg img x,
  ~ In x (registers_of (Write reg data)) -> store_burst reg data img x = img x.
Proof.
  induction data as [|b data IH]; intros reg img x Hx; [reflexivity|].
  rewrite registers_of_Write_cons in Hx. cbn [store_burst].
  rewrite IH by (intros H; apply Hx; right; exact H).
  destruct (Z.eqb_spec x reg) as [->|]; [|reflexivity].
  exfalso. apply Hx. left. reflexivity.
Qed.

Lemma apply_ops_frame ops : forall img x,
  ~ In x (flat_map registers_of ops) -> apply_ops ops img x = img x.
Proof.
  unfold apply_ops.
  induction ops as [|op ops IH]; intros img x Hx; [reflexivity|].
  cbn [fold_left flat_map] in *. rewrite IH by (intros H; apply Hx; apply in_or_app; right; exact H).
  destruct op as [reg data|us]; [|reflexivity].
  apply store_burst_frame. intros H. apply Hx. apply in_or_app. left. exact H.
Qed.

Lemma programme_registers r x :
  In x (flat_map registers_of (programme r)) -> fixed_subset x = true.
Proof.
  unfold programme, MSNA_bytes. cbn [flat_map registers_of length seq map app Z.of_nat].
  intros H. repeat (destruct H as [<-|H]; [reflexivity|]). destruct H.
Qed.

Lemma programme_no_read r :
  Forall (fun c => is_read c = false) (calls_of_list (programme r)).
Proof.
  unfold programme, calls_of_list, MSNA_bytes.
  cbn [flat_map calls_of transaction map app]. repeat constructor.
Qed.


(** * Register 31 *)

Lemma above_100MHz_MSNAa f r :
  100000000 <= f -> MSNA_spec f r -> 23 <= MSNAa r.
Proof.
  unfold MSNA_spec. intros Hlo (_ & Hv & _ & Hfl & _).
  apply IZR_le in Hlo.
  assert (H : 22 < MSNAa r); [apply lt_IZR; lra | lia].
Qed.

Lemma forall_below (n : nat) (P : Z -> bool) :
  forallb P (map Z.of_nat (seq 0 n)) = true ->
  forall x, 0 <= x < Z.of_nat n -> P x = true.
Proof.
  intros H x Hx. rewrite forallb_forall in H. apply H.
  rewrite <- (Z2Nat.id x) by lia. apply in_map. apply in_seq. lia.
Qed.

Lemma high_nibble x : 0 <= x < 256 -> Z.land x 0xF0 = 16 * (x / 16).
Proof.
  intros Hx.
  pose proof (forall_below 256 (fun x => Z.land x 0xF0 =? 16 * (x / 16))
                ltac:(vm_compute; reflexivity) x Hx) as H.
  apply Z.eqb_eq in H. exact H.
Qed.

Lemma nibbles_disjoint z :
  0 <= z < 256 ->
  Z.land (16 * (z / 16)) (z mod 16) = 0
  /\ Z.lor (16 * (z / 16)) (z mod 16) = 16 * (z / 16) + z mod 16.
Proof.
  intros Hz.
  pose proof (forall_below 256
                (fun z => (Z.land (16 * (z / 16)) (z mod 16) =? 0)
                          && (Z.lor (16 * (z / 16)) (z mod 16)
                              =? 16 * (z / 16) + z mod 16))
                ltac:(vm_compute; reflexivity) z Hz) as H.
  apply andb_true_iff in H. destruct H as [H1 H2].
  apply Z.eqb_eq in H1, H2. split; assumption.
Qed.


(** * The calculation as statements over a store *)

Lemma assign_other s x v y : y <> x -> assign s x v y = s y.
Proof.
  intros H. unfold assign. destruct (String.eqb_spec y x); [contradiction|reflexivity].
Qed.

(** From any store that holds [f] in [fout_Hz], the lines run to the end,
    leave the fields of [calc_MSNA f] in the six declared variables, and
    change nothing else. *)
Lemma lines_99_107_run f r s :
  calc_MSNA f = Some r -> s "fout_Hz"%string = VUint32 f ->
  exists s', lines_99_107 s = Some s'
    /\ s' "MSNA"%string = VDouble (MSNA r)
    /\ s' "MSNAa"%string = VUint32 (MSNAa r)
    /\ s' "MSNAb"%string = VUint32 (MSNAb r)
    /\ s' "MSNA_P1"%string = VUint32 (MSNA_P1 r)
    /\ s' "MSNA_P2"%string = VUint32 (MSNA_P2 r)
    /\ s' "MSNA_P3"%string = VUint32 (MSNA_P3 r)
    /\ (forall x, ~ In x declared -> s' x = s x).
Proof.
  intros Hr Hs. unfold calc_MSNA in Hr.
  destruct (Double.to_uint32 (MSNA_expr f)) as [a|] eqn:Ea; [|discriminate].
  cbn [obind] in Hr.
  destruct (Double.to_uint32
              (Double.mul (Double.sub (MSNA_expr f) (Double.of_uint32 a))
                          (Double.of_uint32 MSNAc))) as [b|] eqn:Eb; [|discriminate].
  cbn [obind] in Hr. injection Hr as <-. cbn [MSNA MSNAa MSNAb MSNA_P1 MSNA_P2 MSNA_P3].
  unfold MSNA_expr in Ea, Eb.
  eexists. split.
  - unfold lines_99_107, line_99, read_uint32. rewrite Hs. cbn [obind].
    unfold line_100, read_double. cbn [assign String.eqb Ascii.eqb Bool.eqb obind].
    rewrite Ea. cbn [obind].
    unfold line_102, read_double, read_uint32.
    cbn [assign String.eqb Ascii.eqb Bool.eqb obind].
    rewrite Eb. cbn [obind].
    unfold line_105, line_106, line_107, read_uint32.
    cbn [assign String.eqb Ascii.eqb Bool.eqb obind]. reflexivity.
  - repeat (split; [reflexivity|]).
    intros x Hx. unfold declared in Hx. cbn [In] in Hx.
    rewrite !assign_other by (intros ->; apply Hx; tauto). reflexivity.
Qed.

(** * Properties of the specification *)

(** C1, as stated, fails. At 136,000,000 Hz the claim puts the feedback
    ratio near 32.65109 and [b] near 682,752; even granting a tolerance
    of 0.01 on the ratio and of one per cent on [b], the code's values
    are outside: the ratio is 32.62884... and [b] is 659,386. *)
Lemma C1_counterexample :
  ~ (exists r, calc_MSNA 136000000 = Some r
       /\ (Qabs (Double.to_Q (MSNA r) - (3265109 # 100000)) <= 1 # 100)%Q
       /\ Z.abs (MSNAb r - 682752) * 100 <= 682752).
Proof.
  intros (r & Hr & _ & Hb). vm_compute in Hr. injection Hr as <-.
  cbn [MSNAb] in Hb. lia.
Qed.

(** C1, amended: for 136,000,000 Hz the corrected target
    [fout_Hz * CorrFact] is 135,953,503.9..., the feedback ratio is
    32.62884..., [a = 32], the fraction is 0.62884..., [b = 659,386],
    [c = 1,048,575], and [P1 = 3664], [P2 = 515408], [P3 = 1048575] are
    exactly what the packing formulas give. *)
Theorem C1_scenario_136MHz :
  exists r, calc_MSNA 136000000 = Some r
    /\ ((1359535039 # 10)
        < Double.to_Q (Double.mul (Double.of_uint32 136000000) CorrFact)
        < (1359535040 # 10))%Q
    /\ ((3262884 # 100000) < Double.to_Q (MSNA r) < (3262885 # 100000))%Q
    /\ MSNAa r = 32
    /\ ((62884 # 100000) < Double.to_Q (MSNA r) - inject_Z (MSNAa r)
        < (62885 # 100000))%Q
    /\ MSNAb r = 659386
    /\ MSNAc = 1048575
    /\ MSNA_P1 r = 3664 /\ MSNA_P2 r = 515408 /\ MSNA_P3 r = 1048575
    /\ MSNA_P1 r = 128 * MSNAa r + 128 * MSNAb r / MSNAc - 512
    /\ MSNA_P2 r = 128 * MSNAb r - MSNAc * (128 * MSNAb r / MSNAc)
    /\ MSNA_P3 r = MSNAc.
Proof.
  eexists. split; [vm_compute; reflexivity|].
  cbn [MSNA MSNAa MSNAb MSNA_P1 MSNA_P2 MSNA_P3].
  vm_compute. repeat split; reflexivity.
Qed.

(** C2, as stated, fails: one call issues ten write operations, not
    nine. *)
Lemma C2_counterexample :
  exists t, run_set_freq_Hz unit ack tt 136000000 = Some t
    /\ count_transactions t = 10%nat
    /\ count_transactions t <> 9%nat.
Proof.
  eexists. split; [vm_compute; reflexivity|].
  split; [vm_compute; reflexivity | vm_compute; discriminate].
Qed.

(** C2, amended: for every input frequency, whatever the collaborator
    answers, one call issues exactly the ten write operations of
    [programme], in that order: the nine of section 4.2 and, between its
    steps 2 and 4, the burst that powers down the eight clock control
    registers 16 to 23. The settle delay comes between the clock control
    write and the PLL reset write, and no other write is issued. *)
Theorem C2_write_sequence (World : Type) (respond : World -> call -> World * Z)
        (w : World) (f : Z) :
  is_uint32 f ->
  exists r, calc_MSNA f = Some r
    /\ run_set_freq_Hz World respond w f
       = Some (calls_of_list
                 [ Write 24 [0x00];
                   Write 3 [0xFF];
                   Write 16 [0x80; 0x80; 0x80; 0x80; 0x80; 0x80; 0x80; 0x80];
                   Write 15 [0x00];
                   Write 183 [0x2];
                   Write 42 [0; 1; 0; 1; 0; 0; 0; 0];
                   Write 26 (MSNA_bytes (MSNA_P1 r) (MSNA_P2 r) (MSNA_P3 r));
                   Write 16 [0x4F];
                   Delay 500;
                   Write 177 [0x20];
                   Write 3 [0x00] ])
    /\ count_writes (programme r) = 10%nat.
Proof.
  intros Hf. destruct (calc_MSNA_correct f Hf) as (r & Hr & _).
  exists r. split; [exact Hr|]. split; [|reflexivity].
  exact (run_set_freq_Hz_trace World respond w f r Hr).
Qed.

(** An instance: 136 MHz with a collaborator that acknowledges everything. *)
Lemma C2_witness :
  exists r, calc_MSNA 136000000 = Some r
    /\ run_set_freq_Hz unit ack tt 136000000
       = Some (calls_of_list
                 [ Write 24 [0x00];
                   Write 3 [0xFF];
                   Write 16 [0x80; 0x80; 0x80; 0x80; 0x80; 0x80; 0x80; 0x80];
                   Write 15 [0x00];
                   Write 183 [0x2];
                   Write 42 [0; 1; 0; 1; 0; 0; 0; 0];
                   Write 26 (MSNA_bytes (MSNA_P1 r) (MSNA_P2 r) (MSNA_P3 r));
                   Write 16 [0x4F];
                   Delay 500;
                   Write 177 [0x20];
                   Write 3 [0x00] ])
    /\ count_writes (programme r) = 10%nat.
Proof. apply (C2_write_sequence unit ack tt 136000000). unfold is_uint32. lia. Defined.

(** C3, as stated, fails: at 0 Hz the fraction is [a = 0], [b = 0], the
    formula gives -512, and [MSNA_P1], an unsigned 32-bit value, is
    4294966784. *)
Lemma C3_counterexample :
  exists r, calc_MSNA 0 = Some r
    /\ MSNA_P1 r = 4294966784
    /\ 128 * MSNAa r + 128 * MSNAb r / MSNAc - 512 = -512
    /\ MSNA_P1 r <> 128 * MSNAa r + 128 * MSNAb r / MSNAc - 512.
Proof.
  eexists. split; [vm_compute; reflexivity|].
  cbn [MSNAa MSNAb MSNA_P1].
  split; [reflexivity|]. split; [reflexivity|]. vm_compute. discriminate.
Qed.

(** C3, amended: for every input frequency [P3 = c] and
    [P2 = 128*b - c*floor(128*b/c)] exactly, and [P1] is
    [128*a + floor(128*b/c) - 512] modulo 2^32; [P1] equals that formula
    exactly whenever [a >= 4], which is the case for every frequency of
    at least 100 MHz. *)
Theorem C3_packing_formulas (f : Z) :
  is_uint32 f ->
  exists r, calc_MSNA f = Some r
    /\ MSNA_P3 r = MSNAc
    /\ MSNA_P2 r = 128 * MSNAb r - MSNAc * (128 * MSNAb r / MSNAc)
    /\ MSNA_P1 r = (128 * MSNAa r + 128 * MSNAb r / MSNAc - 512) mod 2 ^ 32
    /\ (4 <= MSNAa r ->
        MSNA_P1 r = 128 * MSNAa r + 128 * MSNAb r / MSNAc - 512)
    /\ (100000000 <= f -> 4 <= MSNAa r).
Proof.
  intros Hf. destruct (calc_MSNA_correct f Hf) as (r & Hr & Hs).
  pose proof (MSNAa_bound f r Hf Hs) as Ha.
  pose proof (fun H => above_100MHz_MSNAa f r H Hs) as H100.
  destruct Hs as (_ & _ & _ & _ & Hb & _ & E1 & E2 & E3).
  destruct (packing (MSNAa r) (MSNAb r) ltac:(change (2 ^ 25) with 33554432; lia) Hb)
    as (_ & P2 & _ & P1 & P1').
  exists r. split; [exact Hr|]. split; [exact E3|].
  split; [rewrite E2; exact P2|]. split; [rewrite E1; exact P1|].
  split; [intros H4; rewrite E1; exact (P1' H4)|].
  intros H. specialize (H100 H). lia.
Qed.

(** An instance: 136 MHz. *)
Lemma C3_witness :
  exists r, calc_MSNA 136000000 = Some r
    /\ MSNA_P3 r = MSNAc
    /\ MSNA_P2 r = 128 * MSNAb r - MSNAc * (128 * MSNAb r / MSNAc)
    /\ MSNA_P1 r = (128 * MSNAa r + 128 * MSNAb r / MSNAc - 512) mod 2 ^ 32
    /\ (4 <= MSNAa r ->
        MSNA_P1 r = 128 * MSNAa r + 128 * MSNAb r / MSNAc - 512)
    /\ (100000000 <= 136000000 -> 4 <= MSNAa r).
Proof. apply (C3_packing_formulas 136000000). unfold is_uint32. lia. Defined.

(** C4: for every frequency in the supported band, [0 <= P2 < c], [P1]
    fits in 18 bits, and [P2] and [P3] fit in 20 bits. *)
Theorem C4_field_widths (f : Z) :
  in_band f ->
  exists r, calc_MSNA f = Some r
    /\ 0 <= MSNA_P2 r < MSNAc
    /\ 0 <= MSNA_P1 r < 2 ^ 18
    /\ 0 <= MSNA_P2 r < 2 ^ 20
    /\ 0 <= MSNA_P3 r < 2 ^ 20.
Proof.
  intros Hband.
  assert (Hf : is_uint32 f) by (unfold is_uint32, in_band in *; lia).
  destruct (calc_MSNA_correct f Hf) as (r & Hr & Hs).
  pose proof (in_band_MSNAa f r Hband Hs) as Ha.
  destruct Hs as (_ & _ & _ & _ & Hb & _ & E1 & E2 & E3).
  destruct (packing (MSNAa r) (MSNAb r) ltac:(change (2 ^ 25) with 33554432; lia) Hb)
    as (Hq & P2 & HP2 & _ & P1).
  exists r. split; [exact Hr|].
  rewrite E1, E2, E3, P2, (P1 ltac:(lia)).
  unfold MSNAc in *. change (2 ^ 18) with 262144. change (2 ^ 20) with 1048576.
  lia.
Qed.

(** An instance: the upper end of the band. *)
Lemma C4_witness :
  exists r, calc_MSNA 150000000 = Some r
    /\ 0 <= MSNA_P2 r < MSNAc
    /\ 0 <= MSNA_P1 r < 2 ^ 18
    /\ 0 <= MSNA_P2 r < 2 ^ 20
    /\ 0 <= MSNA_P3 r < 2 ^ 20.
Proof. apply (C4_field_widths 150000000). unfold in_band. lia. Defined.

(** C5: for every frequency [f] in the supported band, the frequency
    reconstructed from [(a, b, c)] as
    [25000000 * (a + b/c) / 6 / 0.999658117] is within [f / 2^20] of
    [f]. *)
Theorem C5_round_trip (f : Z) :
  in_band f ->
  exists r, calc_MSNA f = Some r
    /\ (Qabs (reconstructed_Hz (MSNAa r) (MSNAb r) MSNAc - inject_Z f)
        <= inject_Z f / inject_Z (2 ^ 20))%Q.
Proof.
  intros Hband.
  assert (Hf : is_uint32 f) by (unfold is_uint32, in_band in *; lia).
  destruct (calc_MSNA_correct f Hf) as (r & Hr & Hs).
  exists r. split; [exact Hr|]. exact (round_trip f r Hband Hs).
Qed.

(** An instance: the lower end of the band. *)
Lemma C5_witness :
  exists r, calc_MSNA 100000000 = Some r
    /\ (Qabs (reconstructed_Hz (MSNAa r) (MSNAb r) MSNAc - inject_Z 100000000)
        <= inject_Z 100000000 / inject_Z (2 ^ 20))%Q.
Proof. apply (C5_round_trip 100000000). unfold in_band. lia. Defined.

(** C6: for every input frequency the synthesizer fraction has
    [a >= 0], [c = 2^20 - 1 = 1048575] and [0 <= b < c]. *)
Theorem C6_fraction_invariant (f : Z) :
  is_uint32 f ->
  exists r, calc_MSNA f = Some r
    /\ 0 <= MSNAa r
    /\ MSNAc = 2 ^ 20 - 1 /\ MSNAc = 1048575 /\ MSNA_P3 r = MSNAc
    /\ 0 <= MSNAb r < MSNAc.
Proof.
  intros Hf. destruct (calc_MSNA_correct f Hf) as (r & Hr & Hs).
  destruct Hs as (_ & _ & Ha & _ & Hb & _ & _ & _ & E3).
  exists r. repeat split; try assumption; try reflexivity; lia.
Qed.

(** An instance: 4,168,091 Hz, where [b] reaches [c - 1]. *)
Lemma C6_witness :
  exists r, calc_MSNA 4168091 = Some r
    /\ 0 <= MSNAa r
    /\ MSNAc = 2 ^ 20 - 1 /\ MSNAc = 1048575 /\ MSNA_P3 r = MSNAc
    /\ 0 <= MSNAb r < MSNAc.
Proof. apply (C6_fraction_invariant 4168091). unfold is_uint32. lia. Defined.

(** C7: the calculation is a function of the target frequency alone.
    Run lines 99 to 107 from any two stores that hold the same frequency
    in [fout_Hz], whatever else they hold: both runs end, both leave the
    same values in the six declared variables, the fields [P1], [P2],
    [P3] of [calc_MSNA] among them, and neither changes any other
    variable. In the entry point, from any machine state and with any
    collaborator, the bytes written to registers 26 to 33 are those of
    the same fields. *)
Theorem C7_deterministic_pure (f : Z) (s1 s2 : store)
        (World : Type) (respond : World -> call -> World * Z)
        (m : machine World) :
  is_uint32 f ->
  s1 "fout_Hz"%string = VUint32 f -> s2 "fout_Hz"%string = VUint32 f ->
  exists r s1' s2',
    calc_MSNA f = Some r
    /\ lines_99_107 s1 = Some s1' /\ lines_99_107 s2 = Some s2'
    /\ (s1' "MSNA_P1"%string, s1' "MSNA_P2"%string, s1' "MSNA_P3"%string)
       = (VUint32 (MSNA_P1 r), VUint32 (MSNA_P2 r), VUint32 (MSNA_P3 r))
    /\ (s2' "MSNA_P1"%string, s2' "MSNA_P2"%string, s2' "MSNA_P3"%string)
       = (VUint32 (MSNA_P1 r), VUint32 (MSNA_P2 r), VUint32 (MSNA_P3 r))
    /\ (forall x, In x declared -> s1' x = s2' x)
    /\ (forall x, ~ In x declared -> s1' x = s1 x /\ s2' x = s2 x)
    /\ (exists w,
          set_freq_Hz World respond f m
          = Some (tt, {| world := w;
                         trace := trace m ++ calls_of_list (programme r) |})).
Proof.
  intros Hf H1 H2. destruct (calc_MSNA_correct f Hf) as (r & Hr & _).
  destruct (lines_99_107_run f r s1 Hr H1)
    as (s1' & E1 & A1 & B1 & C1 & P11 & P12 & P13 & F1).
  destruct (lines_99_107_run f r s2 Hr H2)
    as (s2' & E2 & A2 & B2 & C2 & P21 & P22 & P23 & F2).
  exists r, s1', s2'. split; [exact Hr|]. split; [exact E1|]. split; [exact E2|].
  split; [rewrite P11, P12, P13; reflexivity|].
  split; [rewrite P21, P22, P23; reflexivity|].
  split.
  - intros x Hx. unfold declared in Hx. cbn [In] in Hx.
    destruct Hx as [<-|[<-|[<-|[<-|[<-|[<-|[]]]]]]]; congruence.
  - split.
    + intros x Hx. split; [exact (F1 x Hx) | exact (F2 x Hx)].
    + destruct (emits_set_freq_Hz World respond f r Hr m) as ([] & w & E).
      exists w. exact E.
Qed.

(** An instance: 136 MHz, from a store of zeros and from a store of
    not-a-numbers, in a machine that has already made a call. *)
Lemma C7_witness :
  exists r s1' s2',
    calc_MSNA 136000000 = Some r
    /\ lines_99_107 (zeros 136000000) = Some s1'
    /\ lines_99_107 (garbage 136000000) = Some s2'
    /\ (s1' "MSNA_P1"%string, s1' "MSNA_P2"%string, s1' "MSNA_P3"%string)
       = (VUint32 (MSNA_P1 r), VUint32 (MSNA_P2 r), VUint32 (MSNA_P3 r))
    /\ (s2' "MSNA_P1"%string, s2' "MSNA_P2"%string, s2' "MSNA_P3"%string)
       = (VUint32 (MSNA_P1 r), VUint32 (MSNA_P2 r), VUint32 (MSNA_P3 r))
    /\ (forall x, In x declared -> s1' x = s2' x)
    /\ (forall x, ~ In x declared ->
          s1' x = zeros 136000000 x /\ s2' x = garbage 136000000 x)
    /\ (exists w,
          set_freq_Hz unit nack 136000000 {| world := tt; trace := [read] |}
          = Some (tt, {| world := w;
                         trace := [read] ++ calls_of_list (programme r) |})).
Proof.
  apply (C7_deterministic_pure 136000000 (zeros 136000000) (garbage 136000000)
           unit nack {| world := tt; trace := [read] |});
    [unfold is_uint32; lia | reflexivity | reflexivity].
Defined.

(** C8: for every input frequency, every register the entry point writes
    is in the fixed subset, a register outside it keeps its value, and no
    call reads from the bus. *)
Theorem C8_frame (World : Type) (respond : World -> call -> World * Z)
        (w : World) (f : Z) :
  is_uint32 f ->
  exists r, calc_MSNA f = Some r
    /\ run_set_freq_Hz World respond w f = Some (calls_of_list (programme r))
    /\ (forall reg, In reg (flat_map registers_of (programme r)) ->
                    fixed_subset reg = true)
    /\ (forall (img : image) reg, fixed_subset reg = false ->
                    apply_ops (programme r) img reg = img reg)
    /\ Forall (fun c => is_read c = false) (calls_of_list (programme r)).
Proof.
  intros Hf. destruct (calc_MSNA_correct f Hf) as (r & Hr & _).
  exists r. split; [exact Hr|].
  split; [exact (run_set_freq_Hz_trace World respond w f r Hr)|].
  split; [exact (programme_registers r)|].
  split; [|exact (programme_no_read r)].
  intros img reg Hreg. apply apply_ops_frame. intros Hin.
  rewrite (programme_registers r reg Hin) in Hreg. discriminate.
Qed.

(** An instance: 136 MHz. *)
Lemma C8_witness :
  exists r, calc_MSNA 136000000 = Some r
    /\ run_set_freq_Hz unit ack tt 136000000 = Some (calls_of_list (programme r))
    /\ (forall reg, In reg (flat_map registers_of (programme r)) ->
                    fixed_subset reg = true)
    /\ (forall (img : image) reg, fixed_subset reg = false ->
                    apply_ops (programme r) img reg = img reg)
    /\ Forall (fun c => is_read c = false) (calls_of_list (programme r)).
Proof. apply (C8_frame unit ack tt 136000000). unfold is_uint32. lia. Defined.

(** C9: the entry point returns nothing ([unit]); for every input
    frequency it runs to the end of its write sequence, issues each of
    the ten write operations once, and the calls it makes are the same
    whatever the collaborator reports. *)
Theorem C9_no_error_channel
        (W1 : Type) (respond1 : W1 -> call -> W1 * Z) (w1 : W1)
        (W2 : Type) (respond2 : W2 -> call -> W2 * Z) (w2 : W2) (f : Z) :
  is_uint32 f ->
  exists r s1 s2,
    calc_MSNA f = Some r
    /\ set_freq_Hz W1 respond1 f {| world := w1; trace := [] |} = Some (tt, s1)
    /\ set_freq_Hz W2 respond2 f {| world := w2; trace := [] |} = Some (tt, s2)
    /\ trace s1 = trace s2
    /\ trace s1 = calls_of_list (programme r)
    /\ count_transactions (trace s1) = count_writes (programme r)
    /\ count_transactions (trace s1) = 10%nat.
Proof.
  intros Hf. destruct (calc_MSNA_correct f Hf) as (r & Hr & _).
  destruct (emits_set_freq_Hz W1 respond1 f r Hr {| world := w1; trace := [] |})
    as ([] & w1' & E1).
  destruct (emits_set_freq_Hz W2 respond2 f r Hr {| world := w2; trace := [] |})
    as ([] & w2' & E2).
  eexists r, _, _. split; [exact Hr|]. split; [exact E1|]. split; [exact E2|].
  cbn [trace app]. repeat split; reflexivity.
Qed.

(** An instance: 136 MHz with an acknowledging and a failing collaborator. *)
Lemma C9_witness :
  exists r s1 s2,
    calc_MSNA 136000000 = Some r
    /\ set_freq_Hz unit ack 136000000 {| world := tt; trace := [] |} = Some (tt, s1)
    /\ set_freq_Hz unit nack 136000000 {| world := tt; trace := [] |} = Some (tt, s2)
    /\ trace s1 = trace s2
    /\ trace s1 = calls_of_list (programme r)
    /\ count_transactions (trace s1) = count_writes (programme r)
    /\ count_transactions (trace s1) = 10%nat.
Proof.
  apply (C9_no_error_channel unit ack tt unit nack tt 136000000).
  unfold is_uint32. lia.
Defined.

(** C10: the byte for register 31 is the integer sum of
    [(P3 >> 12) & 0xF0] and [(P2 >> 16) & 0x0F]; for [P2] and [P3] below
    2^20 the two addends share no bit, so the sum is their bitwise OR, and
    the byte holds P3[19:16] in its high nibble and P2[19:16] in its low
    nibble. It is the sixth byte of the burst that starts at register
    26. *)
Theorem C10_reg31_nibbles P1 P2 P3 :
  0 <= P2 < 2 ^ 20 -> 0 <= P3 < 2 ^ 20 ->
  let hi := uint8 (Z.land (Z.shiftr P3 12) 0xF0) in
  let lo := uint8 (Z.land (Z.shiftr P2 16) 0x0F) in
  nth 5 (MSNA_bytes P1 P2 P3) 0 = reg31_byte P2 P3
  /\ reg31_byte P2 P3 = hi + lo
  /\ Z.land hi lo = 0
  /\ hi + lo = Z.lor hi lo
  /\ reg31_byte P2 P3 / 16 = P3 / 2 ^ 16
  /\ reg31_byte P2 P3 mod 16 = P2 / 2 ^ 16.
Proof.
  intros H2 H3 hi lo.
  change (2 ^ 20) with 1048576 in *.
  assert (Hx : 0 <= P3 / 4096 < 256).
  { split; [apply Z.div_pos; lia | apply Z.div_lt_upper_bound; lia]. }
  assert (Hy : 0 <= P2 / 65536 < 16).
  { split; [apply Z.div_pos; lia | apply Z.div_lt_upper_bound; lia]. }
  assert (Hp : 0 <= P3 / 4096 / 16 < 16).
  { split; [apply Z.div_pos; lia | apply Z.div_lt_upper_bound; lia]. }
  assert (Ehi : hi = 16 * (P3 / 65536)).
  { unfold hi, uint8. rewrite Z.shiftr_div_pow2 by lia. change (2 ^ 12) with 4096.
    rewrite high_nibble by exact Hx. rewrite Z.div_div by lia. change (4096 * 16) with 65536.
    rewrite Z.div_div in Hp by lia. change (4096 * 16) with 65536 in Hp.
    apply Z.mod_small. lia. }
  assert (Elo : lo = P2 / 65536).
  { unfold lo, uint8. rewrite Z.shiftr_div_pow2 by lia. change (2 ^ 16) with 65536.
    change 0x0F with (Z.ones 4). rewrite Z.land_ones by lia. change (2 ^ 4) with 16.
    rewrite (Z.mod_small (P2 / 65536) 16) by lia. apply Z.mod_small. lia. }
  rewrite Z.div_div in Hp by lia. change (4096 * 16) with 65536 in Hp.
  set (p := P3 / 65536) in *. set (y := P2 / 65536) in *.
  assert (Hz : 0 <= 16 * p + y < 256) by lia.
  assert (Hzd : (16 * p + y) / 16 = p).
  { symmetry. apply (Z.div_unique _ 16 p y); lia. }
  assert (Hzm : (16 * p + y) mod 16 = y).
  { symmetry. apply (Z.mod_unique _ 16 p y); lia. }
  destruct (nibbles_disjoint (16 * p + y) Hz) as [Hland Hlor].
  rewrite Hzd, Hzm in Hland, Hlor.
  assert (Er : reg31_byte P2 P3 = 16 * p + y).
  { unfold reg31_byte. fold hi lo. rewrite Ehi, Elo. unfold uint8. apply Z.mod_small. lia. }
  change (2 ^ 16) with 65536. fold p y.
  split; [reflexivity|]. rewrite Er, Ehi, Elo, Hland, Hlor, Hzd, Hzm.
  repeat split; reflexivity.
Qed.

(** An instance: the fields of the 136 MHz scenario. *)
Lemma C10_witness :
  let hi := uint8 (Z.land (Z.shiftr 1048575 12) 0xF0) in
  let lo := uint8 (Z.land (Z.shiftr 515408 16) 0x0F) in
  nth 5 (MSNA_bytes 3664 515408 1048575) 0 = reg31_byte 515408 1048575
  /\ reg31_byte 515408 1048575 = hi + lo
  /\ Z.land hi lo = 0
  /\ hi + lo = Z.lor hi lo
  /\ reg31_byte 515408 1048575 / 16 = 1048575 / 2 ^ 16
  /\ reg31_byte 515408 1048575 mod 16 = 515408 / 2 ^ 16.
Proof. apply (C10_reg31_nibbles 3664 515408 1048575); lia. Defined.

(** * Slicing the fields into bytes *)

Lemma uint8_byte z : is_byte (uint8 z).
Proof. unfold is_byte, uint8. apply Z.mod_pos_bound. lia. Qed.

Lemma land_0xF0 x : 0 <= x -> Z.land x 0xF0 = 16 * ((x / 16) mod 16).
Proof.
  intros Hx.
  assert (E : Z.land x 0xF0 = Z.land (x mod 256) 0xF0).
  { change 256 with (2 ^ 8). rewrite <- Z.land_ones by lia.
    rewrite <- Z.land_assoc. reflexivity. }
  rewrite E, high_nibble by (apply Z.mod_pos_bound; lia).
  f_equal. 
  pose proof (Z.mod_pos_bound x 256 ltac:(lia)).
  pose proof (Z_div_mod_eq_full x 256).
  pose proof (Z_div_mod_eq_full x 16).
  pose proof (Z.mod_pos_bound x 16 ltac:(lia)).
  pose proof (Z_div_mod_eq_full (x / 16) 16).
  pose proof (Z.mod_pos_bound (x / 16) 16 ltac:(lia)).
  pose proof (Z_div_mod_eq_full (x mod 256) 16).
  pose proof (Z.mod_pos_bound (x mod 256) 16 ltac:(lia)).
  lia.
Qed.

Lemma reg31_byte_value P2 P3 :
  0 <= P2 -> 0 <= P3 ->
  reg31_byte P2 P3 = 16 * ((P3 / 2 ^ 16) mod 16) + (P2 / 2 ^ 16) mod 16.
Proof.
  intros H2 H3. unfold reg31_byte, uint8.
  rewrite !Z.shiftr_div_pow2 by lia.
  rewrite land_0xF0 by (apply Z.div_pos; lia).
  change 0x0F with (Z.ones 4). rewrite Z.land_ones by lia.
  rewrite Z.div_div by lia. change (2 ^ 12 * 16) with (2 ^ 16). change (2 ^ 4) with 16.
  pose proof (Z.mod_pos_bound (P3 / 2 ^ 16) 16 ltac:(lia)).
  pose proof (Z.mod_pos_bound (P2 / 2 ^ 16) 16 ltac:(lia)).
  rewrite (Z.mod_small (16 * _) 256) by lia.
  rewrite (Z.mod_small (_ mod 16) 256) by lia.
  apply Z.mod_small. lia.
Qed.

Lemma split_20 P :
  0 <= P ->
  ((P / 2 ^ 16) mod 16) * 2 ^ 16 + ((P / 2 ^ 8) mod 256) * 2 ^ 8 + P mod 256
  = P mod 2 ^ 20.
Proof.
  intros HP. change (2 ^ 16) with 65536. change (2 ^ 8) with 256. change (2 ^ 20) with 1048576.
  pose proof (Z_div_mod_eq_full P 1048576). pose proof (Z.mod_pos_bound P 1048576 ltac:(lia)).
  pose proof (Z_div_mod_eq_full P 65536). pose proof (Z.mod_pos_bound P 65536 ltac:(lia)).
  pose proof (Z_div_mod_eq_full P 256). pose proof (Z.mod_pos_bound P 256 ltac:(lia)).
  pose proof (Z_div_mod_eq_full (P / 65536) 16). pose proof (Z.mod_pos_bound (P / 65536) 16 ltac:(lia)).
  pose proof (Z_div_mod_eq_full (P / 256) 256). pose proof (Z.mod_pos_bound (P / 256) 256 ltac:(lia)).
  lia.
Qed.

Lemma split_18 P :
  0 <= P ->
  ((P / 2 ^ 16) mod 4) * 2 ^ 16 + ((P / 2 ^ 8) mod 256) * 2 ^ 8 + P mod 256
  = P mod 2 ^ 18.
Proof.
  intros HP. change (2 ^ 16) with 65536. change (2 ^ 8) with 256. change (2 ^ 18) with 262144.
  pose proof (Z_div_mod_eq_full P 262144). pose proof (Z.mod_pos_bound P 262144 ltac:(lia)).
  pose proof (Z_div_mod_eq_full P 65536). pose proof (Z.mod_pos_bound P 65536 ltac:(lia)).
  pose proof (Z_div_mod_eq_full P 256). pose proof (Z.mod_pos_bound P 256 ltac:(lia)).
  pose proof (Z_div_mod_eq_full (P / 65536) 4). pose proof (Z.mod_pos_bound (P / 65536) 4 ltac:(lia)).
  pose proof (Z_div_mod_eq_full (P / 256) 256). pose proof (Z.mod_pos_bound (P / 256) 256 ltac:(lia)).
  lia.
Qed.

Lemma byte_of_shift P k : 0 <= k -> uint8 (Z.land (Z.shiftr P k) 0xFF) = (P / 2 ^ k) mod 256.
Proof.
  intros Hk. unfold uint8. rewrite Z.shiftr_div_pow2 by lia.
  change 0xFF with (Z.ones 8). rewrite Z.land_ones by lia. change (2 ^ 8) with 256.
  apply Z.mod_mod. lia.
Qed.

Lemma byte_low P : uint8 (Z.land P 0xFF) = P mod 256.
Proof.
  unfold uint8. change 0xFF with (Z.ones 8). rewrite Z.land_ones by lia.
  change (2 ^ 8) with 256. apply Z.mod_mod. lia.
Qed.

Lemma decode_MSNA_bytes P1 P2 P3 :
  0 <= P1 -> 0 <= P2 -> 0 <= P3 ->
  decode_fields (MSNA_bytes P1 P2 P3)
  = Some (P1 mod 2 ^ 18, P2 mod 2 ^ 20, P3 mod 2 ^ 20).
Proof.
  intros H1 H2 H3. unfold MSNA_bytes, decode_fields.
  rewrite reg31_byte_value by assumption.
  rewrite !byte_of_shift by lia.
  rewrite !byte_low.
  assert (E28 : Z.land (uint8 (Z.land (Z.shiftr P1 16) 0x03)) 0x03 = (P1 / 2 ^ 16) mod 4).
  { unfold uint8. rewrite Z.shiftr_div_pow2 by lia.
    change 0x03 with (Z.ones 2). rewrite !Z.land_ones by lia. change (2 ^ 2) with 4.
    pose proof (Z.mod_pos_bound (P1 / 2 ^ 16) 4 ltac:(lia)).
    rewrite (Z.mod_small (_ mod 4) 256) by lia. apply Z.mod_mod. lia. }
  rewrite E28.
  pose proof (Z.mod_pos_bound (P3 / 2 ^ 16) 16 ltac:(lia)) as B3.
  pose proof (Z.mod_pos_bound (P2 / 2 ^ 16) 16 ltac:(lia)) as B2.
  assert (Ed : (16 * ((P3 / 2 ^ 16) mod 16) + (P2 / 2 ^ 16) mod 16) / 16 = (P3 / 2 ^ 16) mod 16).
  { symmetry. apply (Z.div_unique _ 16 _ ((P2 / 2 ^ 16) mod 16)); lia. }
  assert (Em : (16 * ((P3 / 2 ^ 16) mod 16) + (P2 / 2 ^ 16) mod 16) mod 16 = (P2 / 2 ^ 16) mod 16).
  { symmetry. apply (Z.mod_unique _ 16 ((P3 / 2 ^ 16) mod 16)); lia. }
  rewrite Ed, Em, split_18, !split_20 by assumption. reflexivity.
Qed.

(** ** The smallest frequency whose fields do not wrap *)

Lemma above_threshold_MSNAa f r :
  16672367 <= f -> MSNA_spec f r -> 4 <= MSNAa r.
Proof.
  unfold MSNA_spec. intros Hlo (_ & Hv & _ & Hfl & _).
  apply IZR_le in Hlo.
  assert (H : 3 < MSNAa r); [apply lt_IZR; lra | lia].
Qed.

Lemma below_threshold_MSNAa f r :
  0 <= f <= 16672366 -> MSNA_spec f r -> MSNAa r <= 3.
Proof.
  unfold MSNA_spec. intros [Hlo Hhi] (_ & Hv & _ & Hfl & _).
  apply IZR_le in Hlo, Hhi.
  assert (H : MSNAa r < 4); [apply lt_IZR; lra | lia].
Qed.

(** ** How far the synthesizer fraction is from the request *)

Lemma reconstruction_error f r :
  is_uint32 f -> MSNA_spec f r ->
  (- (3976 # 1000) <= reconstructed_Hz (MSNAa r) (MSNAb r) MSNAc - inject_Z f
   <= 1 # 100000)%Q.
Proof.
  intros [Hlo Hhi] Hspec.
  assert (Hhi' : f <= 4294967295) by (change (2 ^ 32) with 4294967296 in Hhi; lia).
  apply IZR_le in Hlo, Hhi'.
  destruct Hspec as (_ & Hv & _ & Hfl & Hb & Hbv & _).
  set (v := B2R (MSNA r)) in *.
  split; apply Rle_Qle;
    rewrite ?Q2R_opp, Q2R_minus, Q2R_reconstructed_Hz, !Q2R_inject_Z
      by (unfold MSNAc; lia).
  - replace (Q2R (3976 # 1000)) with (3976 / 1000)%R by (unfold Q2R; simpl; reflexivity).
    unfold MSNAc. unfold Rdiv in *. lra.
  - replace (Q2R (1 # 100000)) with (1 / 100000)%R by (unfold Q2R; simpl; reflexivity).
    unfold MSNAc. unfold Rdiv in *. lra.
Qed.

(** ** Device images that agree on a register *)

Lemma store_burst_agree data : forall reg img1 img2 x,
  img1 x = img2 x \/ In x (registers_of (Write reg data)) ->
  store_burst reg data img1 x = store_burst reg data img2 x.
Proof.
  induction data as [|b data IH]; intros reg img1 img2 x H.
  - destruct H as [H|[]]. exact H.
  - rewrite registers_of_Write_cons in H. cbn [store_burst]. apply IH.
    destruct (Z.eqb_spec x reg) as [->|Hne]; [left; reflexivity|].
    destruct H as [H|[H|H]]; [left; exact H | congruence | right; exact H].
Qed.

Lemma apply_ops_agree ops : forall img1 img2 x,
  img1 x = img2 x \/ In x (flat_map registers_of ops) ->
  apply_ops ops img1 x = apply_ops ops img2 x.
Proof.
  unfold apply_ops.
  induction ops as [|op ops IH]; intros img1 img2 x H.
  - destruct H as [H|[]]. exact H.
  - cbn [fold_left flat_map] in *. apply IH.
    destruct H as [H|H].
    + left. destruct op as [reg data|us]; [|exact H].
      apply store_burst_agree. left. exact H.
    + apply in_app_or in H. destruct H as [H|H]; [|right; exact H].
      left. destruct op as [reg data|us]; [|destruct H].
      apply store_burst_agree. right. exact H.
Qed.

Lemma apply_ops_app ops1 ops2 img :
  apply_ops (ops1 ++ ops2) img = apply_ops ops2 (apply_ops ops1 img).
Proof. unfold apply_ops. apply fold_left_app. Qed.

Lemma programme_last_wins r1 r2 img reg :
  apply_ops (programme r1 ++ programme r2) img reg
  = apply_ops (programme r2) img reg.
Proof.
  rewrite apply_ops_app.
  destruct (in_dec Z.eq_dec reg (flat_map registers_of (programme r2))) as [Hin|Hout].
  - apply apply_ops_agree. right. exact Hin.
  - apply apply_ops_agree. left. apply apply_ops_frame. exact Hout.
Qed.

Lemma programme_bytes r : Forall well_formed (programme r).
Proof.
  unfold programme, MSNA_bytes, reg31_byte.
  repeat (apply Forall_cons; [cbn [well_formed length]|]); try apply Forall_nil;
    try reflexivity;
    (split; [unfold is_byte; lia|]; split; [auto|]);
    repeat (apply Forall_cons; [first [apply uint8_byte | unfold is_byte; lia]|]);
    apply Forall_nil.
Qed.

Lemma programme_calls r : Forall well_formed_call (calls_of_list (programme r)).
Proof.
  unfold programme, calls_of_list, MSNA_bytes, reg31_byte.
  cbn [flat_map calls_of transaction map app].
  repeat (apply Forall_cons;
          [cbn [well_formed_call];
           first [reflexivity | exact I | apply uint8_byte | unfold is_byte; lia]|]).
  apply Forall_nil.
Qed.

(** * Further properties of the code *)

(** X1: [I2CFlexiWrite], from any state and whatever [Wire] returns,
    succeeds and appends one transaction to the trace: the bus address
    0x60, the register, [b0], the seven further bytes only when
    [include_b1_to_b7] is set, and the end of the transmission. When the
    flag is clear, [b1] to [b7] are not sent. *)
Theorem X1_I2CFlexiWrite_transaction (World : Type)
        (respond : World -> call -> World * Z)
        (reg b0 : Z) (include_b1_to_b7 : bool) (b1 b2 b3 b4 b5 b6 b7 : Z)
        (s : machine World) :
  exists w,
    I2CFlexiWrite World respond reg b0 include_b1_to_b7 b1 b2 b3 b4 b5 b6 b7 s
    = Some (tt, {| world := w;
                   trace := trace s ++
                     beginTransmission 0x60 :: write reg :: write b0 ::
                     (if include_b1_to_b7
                      then [write b1; write b2; write b3; write b4;
                            write b5; write b6; write b7]
                      else []) ++ [endTransmission] |}).
Proof.
  destruct include_b1_to_b7.
  - destruct (emits_I2CFlexiWrite8 World respond reg b0 b1 b2 b3 b4 b5 b6 b7 s)
      as ([] & w & E).
    exists w. exact E.
  - destruct (emits_I2CFlexiWrite1 World respond reg b0 s) as ([] & w & E).
    exists w. exact E.
Qed.

(** X2: for every input frequency, every write operation of one call has
    a register address in 0..255 and carries one or eight data bytes,
    each in 0..255; on the wire every transaction is addressed to 0x60 and
    the only delay is 500 microseconds. *)
Theorem X2_bytes_on_the_wire (World : Type) (respond : World -> call -> World * Z)
        (w : World) (f : Z) :
  is_uint32 f ->
  exists r, calc_MSNA f = Some r
    /\ run_set_freq_Hz World respond w f = Some (calls_of_list (programme r))
    /\ Forall well_formed (programme r)
    /\ Forall well_formed_call (calls_of_list (programme r)).
Proof.
  intros Hf. destruct (calc_MSNA_correct f Hf) as (r & Hr & _).
  exists r. split; [exact Hr|].
  split; [exact (run_set_freq_Hz_trace World respond w f r Hr)|].
  split; [apply programme_bytes | apply programme_calls].
Qed.

(** An instance: the top of the input range. *)
Lemma X2_witness :
  exists r, calc_MSNA 4294967295 = Some r
    /\ run_set_freq_Hz unit ack tt 4294967295 = Some (calls_of_list (programme r))
    /\ Forall well_formed (programme r)
    /\ Forall well_formed_call (calls_of_list (programme r)).
Proof. apply (X2_bytes_on_the_wire unit ack tt 4294967295). unfold is_uint32. lia. Defined.

(** X3: the eight bytes of the feedback multisynth burst hold the three
    fields without loss: for [P1] below 2^18 and [P2], [P3] below 2^20,
    reading registers 26 to 33 back by the documented layout gives
    [P1], [P2], [P3] again. *)
Theorem X3_slicing_round_trip (P1 P2 P3 : Z) :
  0 <= P1 < 2 ^ 18 -> 0 <= P2 < 2 ^ 20 -> 0 <= P3 < 2 ^ 20 ->
  decode_fields (MSNA_bytes P1 P2 P3) = Some (P1, P2, P3).
Proof.
  intros H1 H2 H3. rewrite decode_MSNA_bytes by lia.
  rewrite !Z.mod_small by assumption. reflexivity.
Qed.

(** An instance: the fields of the 136 MHz scenario. *)
Lemma X3_witness :
  decode_fields (MSNA_bytes 3664 515408 1048575) = Some (3664, 515408, 1048575).
Proof. apply (X3_slicing_round_trip 3664 515408 1048575); lia. Defined.



(** X5: from 16,672,367 Hz up, the packing loses nothing: the multiplier
    the device rebuilds from the fields, [(P1 + 512 + P2/P3) / 128], is
    [a + b/c]; in integers [(P1 + 512) * P3 + P2 = 128 * (a * c + b)]
    with [0 <= P2 < P3]. *)
Theorem X5_packing_round_trip (f : Z) :
  is_uint32 f -> 16672367 <= f ->
  exists r, calc_MSNA f = Some r
    /\ (MSNA_P1 r + 512) * MSNA_P3 r + MSNA_P2 r
       = 128 * (MSNAa r * MSNAc + MSNAb r)
    /\ 0 <= MSNA_P2 r < MSNA_P3 r.
Proof.
  intros Hf Hlo. destruct (calc_MSNA_correct f Hf) as (r & Hr & Hs).
  pose proof (MSNAa_bound f r Hf Hs) as Ha.
  pose proof (above_threshold_MSNAa f r Hlo Hs) as H4.
  destruct Hs as (_ & _ & _ & _ & Hb & _ & E1 & E2 & E3).
  destruct (packing (MSNAa r) (MSNAb r) ltac:(change (2 ^ 25) with 33554432; lia) Hb)
    as (_ & P2 & HP2 & _ & P1).
  exists r. split; [exact Hr|].
  rewrite E1, E2, E3, P2, (P1 H4). split; [ring | exact HP2].
Qed.

(** An instance: the threshold itself. *)
Lemma X5_witness :
  exists r, calc_MSNA 16672367 = Some r
    /\ (MSNA_P1 r + 512) * MSNA_P3 r + MSNA_P2 r
       = 128 * (MSNAa r * MSNAc + MSNAb r)
    /\ 0 <= MSNA_P2 r < MSNA_P3 r.
Proof. apply (X5_packing_round_trip 16672367); [unfold is_uint32; lia | lia]. Defined.

(** X6: no frequency is too large for the fields. For every input from
    16,672,367 Hz up to the largest [uint32_t], [4 <= a <= 1030],
    [P1 = 128*a + floor(128*b/c) - 512] without wrap-around and below
    2^18, and [P2], [P3] are below 2^20. *)
Theorem X6_fields_fit_above_threshold (f : Z) :
  is_uint32 f -> 16672367 <= f ->
  exists r, calc_MSNA f = Some r
    /\ 4 <= MSNAa r <= 1030
    /\ MSNA_P1 r = 128 * MSNAa r + 128 * MSNAb r / MSNAc - 512
    /\ 0 <= MSNA_P1 r < 2 ^ 18
    /\ 0 <= MSNA_P2 r < 2 ^ 20
    /\ 0 <= MSNA_P3 r < 2 ^ 20.
Proof.
  intros Hf Hlo. destruct (calc_MSNA_correct f Hf) as (r & Hr & Hs).
  pose proof (MSNAa_bound f r Hf Hs) as Ha.
  pose proof (above_threshold_MSNAa f r Hlo Hs) as H4.
  destruct Hs as (_ & _ & _ & _ & Hb & _ & E1 & E2 & E3).
  destruct (packing (MSNAa r) (MSNAb r) ltac:(change (2 ^ 25) with 33554432; lia) Hb)
    as (Hq & P2 & HP2 & _ & P1).
  exists r. split; [exact Hr|]. split; [lia|].
  rewrite E1, E2, E3, P2, (P1 H4).
  unfold MSNAc in *. change (2 ^ 18) with 262144. change (2 ^ 20) with 1048576.
  lia.
Qed.

(** An instance: the largest input. *)
Lemma X6_witness :
  exists r, calc_MSNA 4294967295 = Some r
    /\ 4 <= MSNAa r <= 1030
    /\ MSNA_P1 r = 128 * MSNAa r + 128 * MSNAb r / MSNAc - 512
    /\ 0 <= MSNA_P1 r < 2 ^ 18
    /\ 0 <= MSNA_P2 r < 2 ^ 20
    /\ 0 <= MSNA_P3 r < 2 ^ 20.
Proof.
  apply (X6_fields_fit_above_threshold 4294967295); [unfold is_uint32; lia | lia].
Defined.

(** X7: below 16,672,367 Hz nothing is checked and [P1] wraps: for every
    input up to 16,672,366 Hz, [a <= 3] and
    [P1 = 2^32 + 128*a + floor(128*b/c) - 512], at least 2^32 - 512, which
    does not fit 18 bits. *)
Theorem X7_P1_wraps_below_threshold (f : Z) :
  0 <= f <= 16672366 ->
  exists r, calc_MSNA f = Some r
    /\ 0 <= MSNAa r <= 3
    /\ MSNA_P1 r = 2 ^ 32 + (128 * MSNAa r + 128 * MSNAb r / MSNAc - 512)
    /\ 2 ^ 32 - 512 <= MSNA_P1 r < 2 ^ 32.
Proof.
  intros Hrange.
  assert (Hf : is_uint32 f) by (unfold is_uint32; change (2 ^ 32) with 4294967296; lia).
  destruct (calc_MSNA_correct f Hf) as (r & Hr & Hs).
  pose proof (MSNAa_bound f r Hf Hs) as Ha.
  pose proof (below_threshold_MSNAa f r Hrange Hs) as H3.
  destruct Hs as (_ & _ & _ & _ & Hb & _ & E1 & _ & _).
  destruct (packing (MSNAa r) (MSNAb r) ltac:(change (2 ^ 25) with 33554432; lia) Hb)
    as (Hq & _ & _ & P1 & _).
  exists r. split; [exact Hr|]. split; [lia|].
  rewrite E1, P1. change (2 ^ 32) with 4294967296.
  assert (E : (128 * MSNAa r + 128 * MSNAb r / MSNAc - 512) mod 4294967296
              = 4294967296 + (128 * MSNAa r + 128 * MSNAb r / MSNAc - 512)).
  { symmetry. apply (Z.mod_unique _ _ (-1)); lia. }
  rewrite E. lia.
Qed.

(** An instance: the last frequency below the threshold. *)
Lemma X7_witness :
  exists r, calc_MSNA 16672366 = Some r
    /\ 0 <= MSNAa r <= 3
    /\ MSNA_P1 r = 2 ^ 32 + (128 * MSNAa r + 128 * MSNAb r / MSNAc - 512)
    /\ 2 ^ 32 - 512 <= MSNA_P1 r < 2 ^ 32.
Proof. apply (X7_P1_wraps_below_threshold 16672366). lia. Defined.

(** X8: for every input frequency, the frequency the synthesizer fraction
    stands for, [25000000 * (a + b/c) / 6 / 0.999658117], is never more
    than 3.976 Hz below the request and never more than 0.00001 Hz above
    it. *)
Theorem X8_reconstruction_error (f : Z) :
  is_uint32 f ->
  exists r, calc_MSNA f = Some r
    /\ (- (3976 # 1000)
        <= reconstructed_Hz (MSNAa r) (MSNAb r) MSNAc - inject_Z f
        <= 1 # 100000)%Q.
Proof.
  intros Hf. destruct (calc_MSNA_correct f Hf) as (r & Hr & Hs).
  exists r. split; [exact Hr|]. exact (reconstruction_error f r Hf Hs).
Qed.

(** An instance: 4,168,091 Hz, where [b] is [c - 1]. *)
Lemma X8_witness :
  exists r, calc_MSNA 4168091 = Some r
    /\ (- (3976 # 1000)
        <= reconstructed_Hz (MSNAa r) (MSNAb r) MSNAc - inject_Z 4168091
        <= 1 # 100000)%Q.
Proof. apply (X8_reconstruction_error 4168091). unfold is_uint32. lia. Defined.

(** X9: requests at least 4 Hz apart never share a setting: the higher
    request gets the strictly higher synthesizer fraction, so [(a, b)]
    differ. *)
Theorem X9_four_Hz_resolution (f1 f2 : Z) :
  is_uint32 f1 -> is_uint32 f2 -> f1 + 4 <= f2 ->
  exists r1 r2, calc_MSNA f1 = Some r1 /\ calc_MSNA f2 = Some r2
    /\ (reconstructed_Hz (MSNAa r1) (MSNAb r1) MSNAc
        < reconstructed_Hz (MSNAa r2) (MSNAb r2) MSNAc)%Q
    /\ (MSNAa r1, MSNAb r1) <> (MSNAa r2, MSNAb r2).
Proof.
  intros Hf1 Hf2 Hgap.
  destruct (calc_MSNA_correct f1 Hf1) as (r1 & Hr1 & Hs1).
  destruct (calc_MSNA_correct f2 Hf2) as (r2 & Hr2 & Hs2).
  destruct (reconstruction_error f1 r1 Hf1 Hs1) as [_ Hup].
  destruct (reconstruction_error f2 r2 Hf2 Hs2) as [Hdown _].
  assert (Hlt : (reconstructed_Hz (MSNAa r1) (MSNAb r1) MSNAc
                 < reconstructed_Hz (MSNAa r2) (MSNAb r2) MSNAc)%Q).
  { apply Rlt_Qlt. apply Qle_Rle in Hup, Hdown.
    rewrite Q2R_minus, Q2R_inject_Z in Hup.
    rewrite Q2R_opp, Q2R_minus, Q2R_inject_Z in Hdown.
    replace (Q2R (3976 # 1000)) with (3976 / 1000)%R in Hdown by (unfold Q2R; simpl; reflexivity).
    replace (Q2R (1 # 100000)) with (1 / 100000)%R in Hup by (unfold Q2R; simpl; reflexivity).
    apply IZR_le in Hgap. rewrite plus_IZR in Hgap. lra. }
  exists r1, r2. split; [exact Hr1|]. split; [exact Hr2|]. split; [exact Hlt|].
  intros E. injection E as Ea Eb. rewrite Ea, Eb in Hlt.
  exact (Qlt_irrefl _ Hlt).
Qed.

(** An instance: 136,000,000 Hz and 136,000,004 Hz. *)
Lemma X9_witness :
  exists r1 r2, calc_MSNA 136000000 = Some r1 /\ calc_MSNA 136000004 = Some r2
    /\ (reconstructed_Hz (MSNAa r1) (MSNAb r1) MSNAc
        < reconstructed_Hz (MSNAa r2) (MSNAb r2) MSNAc)%Q
    /\ (MSNAa r1, MSNAb r1) <> (MSNAa r2, MSNAb r2).
Proof.
  apply (X9_four_Hz_resolution 136000000 136000004); unfold is_uint32; lia.
Defined.

(** X10: [a] and [b] are obtained by truncation, not rounding: for every
    input frequency [a] is the integer part of the computed ratio [MSNA],
    [a <= MSNA < a + 1], and [b] is never above [(MSNA - a) * c] by more
    than 2^-34 and is less than [1 + 2^-34] below it. *)
Theorem X10_truncation (f : Z) :
  is_uint32 f ->
  exists r, calc_MSNA f = Some r
    /\ MSNA r = MSNA_expr f
    /\ (inject_Z (MSNAa r) <= Double.to_Q (MSNA r) < inject_Z (MSNAa r) + 1)%Q
    /\ ((Double.to_Q (MSNA r) - inject_Z (MSNAa r)) * inject_Z MSNAc
          - 1 - (1 # 17179869184) < inject_Z (MSNAb r)
        <= (Double.to_Q (MSNA r) - inject_Z (MSNAa r)) * inject_Z MSNAc
          + (1 # 17179869184))%Q.
Proof.
  intros Hf. destruct (calc_MSNA_correct f Hf) as (r & Hr & Hs).
  destruct Hs as (Hm & _ & _ & Hfl & _ & Hbv & _).
  exists r. split; [exact Hr|]. split; [exact Hm|].
  assert (E17 : Q2R (1 # 17179869184) = (/ 17179869184)%R)
    by (unfold Q2R; simpl; lra).
  repeat split.
  - apply Rle_Qle. rewrite Q2R_inject_Z, to_Q_B2R. lra.
  - apply Rlt_Qlt. rewrite Q2R_plus, Q2R_inject_Z, to_Q_B2R.
    replace (Q2R 1) with 1%R by (unfold Q2R; simpl; lra). lra.
  - apply Rlt_Qlt.
    rewrite !Q2R_minus, Q2R_mult, Q2R_minus, !Q2R_inject_Z, to_Q_B2R, E17.
    replace (Q2R 1) with 1%R by (unfold Q2R; simpl; lra).
    unfold MSNAc. lra.
  - apply Rle_Qle.
    rewrite Q2R_plus, Q2R_mult, Q2R_minus, !Q2R_inject_Z, to_Q_B2R, E17.
    unfold MSNAc. lra.
Qed.

(** An instance: 136 MHz. *)
Lemma X10_witness :
  exists r, calc_MSNA 136000000 = Some r
    /\ MSNA r = MSNA_expr 136000000
    /\ (inject_Z (MSNAa r) <= Double.to_Q (MSNA r) < inject_Z (MSNAa r) + 1)%Q
    /\ ((Double.to_Q (MSNA r) - inject_Z (MSNAa r)) * inject_Z MSNAc
          - 1 - (1 # 17179869184) < inject_Z (MSNAb r)
        <= (Double.to_Q (MSNA r) - inject_Z (MSNAa r)) * inject_Z MSNAc
          + (1 # 17179869184))%Q.
Proof. apply (X10_truncation 136000000). unfold is_uint32. lia. Defined.

(** X11: what one call leaves in the device, whatever was there before:
    register 3 is 0x00 (the 0xFF written first is overwritten), register
    16 is 0x4F (the power-down 0x80 is overwritten), registers 17 to 23
    stay at 0x80, 24 and 15 are 0, 183 is 2, 177 is 0x20, 42 to 49 hold
    the output multisynth constants and 26 to 33 the feedback multisynth
    bytes. *)
Theorem X11_device_after_call (World : Type) (respond : World -> call -> World * Z)
        (w : World) (f : Z) (img : image) :
  is_uint32 f ->
  exists r, calc_MSNA f = Some r
    /\ run_set_freq_Hz World respond w f = Some (calls_of_list (programme r))
    /\ apply_ops (programme r) img 3 = 0x00
    /\ apply_ops (programme r) img 16 = 0x4F
    /\ (forall k, 17 <= k <= 23 -> apply_ops (programme r) img k = 0x80)
    /\ apply_ops (programme r) img 24 = 0
    /\ apply_ops (programme r) img 15 = 0
    /\ apply_ops (programme r) img 183 = 2
    /\ apply_ops (programme r) img 177 = 0x20
    /\ map (apply_ops (programme r) img) [42; 43; 44; 45; 46; 47; 48; 49]
       = [0; 1; 0; 1; 0; 0; 0; 0]
    /\ map (apply_ops (programme r) img) [26; 27; 28; 29; 30; 31; 32; 33]
       = MSNA_bytes (MSNA_P1 r) (MSNA_P2 r) (MSNA_P3 r).
Proof.
  intros Hf. destruct (calc_MSNA_correct f Hf) as (r & Hr & _).
  exists r. split; [exact Hr|].
  split; [exact (run_set_freq_Hz_trace World respond w f r Hr)|].
  repeat split; try reflexivity.
  intros k Hk.
  assert (Ek : k = 17 \/ k = 18 \/ k = 19 \/ k = 20 \/ k = 21 \/ k = 22 \/ k = 23) by lia.
  destruct Ek as [->|[->|[->|[->|[->|[->| ->]]]]]]; reflexivity.
Qed.

(** An instance: 136 MHz on a device whose registers all hold 0xAA. *)
Lemma X11_witness :
  exists r, calc_MSNA 136000000 = Some r
    /\ run_set_freq_Hz unit ack tt 136000000 = Some (calls_of_list (programme r))
    /\ apply_ops (programme r) (fun _ => 0xAA) 3 = 0x00
    /\ apply_ops (programme r) (fun _ => 0xAA) 16 = 0x4F
    /\ (forall k, 17 <= k <= 23 -> apply_ops (programme r) (fun _ => 0xAA) k = 0x80)
    /\ apply_ops (programme r) (fun _ => 0xAA) 24 = 0
    /\ apply_ops (programme r) (fun _ => 0xAA) 15 = 0
    /\ apply_ops (programme r) (fun _ => 0xAA) 183 = 2
    /\ apply_ops (programme r) (fun _ => 0xAA) 177 = 0x20
    /\ map (apply_ops (programme r) (fun _ => 0xAA)) [42; 43; 44; 45; 46; 47; 48; 49]
       = [0; 1; 0; 1; 0; 0; 0; 0]
    /\ map (apply_ops (programme r) (fun _ => 0xAA)) [26; 27; 28; 29; 30; 31; 32; 33]
       = MSNA_bytes (MSNA_P1 r) (MSNA_P2 r) (MSNA_P3 r).
Proof.
  apply (X11_device_after_call unit ack tt 136000000 (fun _ => 0xAA)).
  unfold is_uint32. lia.
Defined.

(** X12: retuning. Two calls in a row make the calls of the first
    followed by the calls of the second, and leave every register of the
    device as the second call alone would: nothing of the first
    frequency remains. *)
Theorem X12_second_call_wins (World : Type) (respond : World -> call -> World * Z)
        (f1 f2 : Z) :
  is_uint32 f1 -> is_uint32 f2 ->
  exists r1 r2, calc_MSNA f1 = Some r1 /\ calc_MSNA f2 = Some r2
    /\ emits World
         (bind World (set_freq_Hz World respond f1)
               (fun _ => set_freq_Hz World respond f2))
         (calls_of_list (programme r1 ++ programme r2))
    /\ (forall (img : image) reg,
          apply_ops (programme r1 ++ programme r2) img reg
          = apply_ops (programme r2) img reg).
Proof.
  intros Hf1 Hf2.
  destruct (calc_MSNA_correct f1 Hf1) as (r1 & Hr1 & _).
  destruct (calc_MSNA_correct f2 Hf2) as (r2 & Hr2 & _).
  exists r1, r2. split; [exact Hr1|]. split; [exact Hr2|]. split.
  - unfold calls_of_list. rewrite flat_map_app. apply emits_bind.
    + exact (emits_set_freq_Hz World respond f1 r1 Hr1).
    + intros _. exact (emits_set_freq_Hz World respond f2 r2 Hr2).
  - intros img reg. apply programme_last_wins.
Qed.

(** An instance: from 100 MHz to 150 MHz. *)
Lemma X12_witness :
  exists r1 r2, calc_MSNA 100000000 = Some r1 /\ calc_MSNA 150000000 = Some r2
    /\ emits unit
         (bind unit (set_freq_Hz unit ack 100000000)
               (fun _ => set_freq_Hz unit ack 150000000))
         (calls_of_list (programme r1 ++ programme r2))
    /\ (forall (img : image) reg,
          apply_ops (programme r1 ++ programme r2) img reg
          = apply_ops (programme r2) img reg).
Proof.
  apply (X12_second_call_wins unit ack 100000000 150000000); unfold is_uint32; lia.
Defined.
